(** * WATER: the metrics calculator (backend/metrics_calculator.py)

    A shallow embedding of [MetricsCalculator]: the three tag metrics
    (ITAA, HAM, LIM), the accessibility-percentage lookup and the loop of
    [calculate_metrics] that writes one row of results.csv per stored record.

    Modelling conventions.
    - A Python [str] is a [string] of 8-bit characters; [str.lower] is the
      ASCII case folding, which is all the compared literals can see.
    - A Python [float] obtained as [count / len(tags)] is represented by the
      rational it rounds, kept in lowest terms, so that two cells are equal
      exactly when the quotients are.
    - Python exceptions are values of [exn]; a computation that can raise
      returns a [result], a method that also mutates [self.row_data] or
      results.csv is a function from [world] to [outcome].
    - [BeautifulSoup(markup, "html.parser")] is a parameter of the
      development: every statement holds for whatever document the parser
      builds from a fragment. *)

From Stdlib Require Import Ascii String QArith.
From stdpp Require Import gmap strings list.

(** ** Python strings *)

Module Py.

(** [c.lower()] on one character. *)
Definition lower_char (c : ascii) : ascii :=
  let n := nat_of_ascii c in
  if (65 <=? n) && (n <=? 90) then ascii_of_nat (n + 32) else c.

(** [s.lower()] *)
Fixpoint lower (s : string) : string :=
  match s with
  | EmptyString => EmptyString
  | String c s' => String (lower_char c) (lower s')
  end.

(** [s.startswith(pre)] *)
Fixpoint startswith (s pre : string) {struct pre} : bool :=
  match pre, s with
  | EmptyString, _ => true
  | String _ _, EmptyString => false
  | String a pre', String b s' => Ascii.eqb a b && startswith s' pre'
  end.

(** [sub in s]: [sub] starts at some position of [s]. *)
Fixpoint contains (sub s : string) : bool :=
  if startswith s sub then true
  else match s with
       | EmptyString => false
       | String _ s' => contains sub s'
       end.

(** [s.split(" ")]: never the empty list, consecutive separators give
    empty tokens. *)
Fixpoint split_space (s : string) : list string :=
  match s with
  | EmptyString => [EmptyString]
  | String c s' =>
      if Ascii.eqb c " "%char then EmptyString :: split_space s'
      else match split_space s' with
           | tok :: toks => String c tok :: toks
           | [] => [String c EmptyString]
           end
  end.

(** [" ".join(toks)] *)
Fixpoint join_space (toks : list string) : string :=
  match toks with
  | [] => EmptyString
  | [tok] => tok
  | tok :: toks' => tok +:+ String " "%char (join_space toks')
  end.

End Py.

(** ** Exceptions *)

Inductive exn : Type :=
| KeyError
| IndexError
| ZeroDivisionError
| AttributeError
| WebDriverException (msg : string).

Inductive result (A : Type) : Type :=
| Ok (a : A)
| Raise (e : exn).
Arguments Ok {A} a.
Arguments Raise {A} e.

Definition rbind {A B} (r : result A) (k : A -> result B) : result B :=
  match r with
  | Ok a => k a
  | Raise e => Raise e
  end.

#[export] Instance result_ret : MRet result := @Ok.
#[export] Instance result_bind : MBind result :=
  fun A B k r => rbind r k.

(** [try: body / except KeyError: handler] *)
Definition try_except_KeyError {A} (body handler : result A) : result A :=
  match body with
  | Raise KeyError => handler
  | r => r
  end.

(** [for x in xs: acc = body x acc], stopping at the first exception. *)
Fixpoint for_each {A S} (xs : list A) (body : A -> S -> result S) (acc : S)
  : result S :=
  match xs with
  | [] => Ok acc
  | x :: xs' => rbind (body x acc) (for_each xs' body)
  end.

(** [a / b] on two ints. *)
Definition truediv (a b : nat) : result Q :=
  if b =? 0 then Raise ZeroDivisionError
  else Ok (Qred (Z.of_nat a # Pos.of_nat b)).

(** ** BeautifulSoup documents *)

Record Tag : Type := {
  tag_name : string;
  tag_attrs : gmap string string
}.

(** What the calculator reads of a parsed document: its elements in
    document order and its text. *)
Record Soup : Type := {
  soup_tags : list Tag;
  soup_text : string
}.

(** [soup(name)], that is [soup.find_all(name)] *)
Definition find_all (soup : Soup) (name : string) : list Tag :=
  List.filter (fun t => String.eqb (tag_name t) name) (soup_tags soup).

(** [xs[0]] *)
Definition first {A} (xs : list A) : result A :=
  match xs with
  | x :: _ => Ok x
  | [] => Raise IndexError
  end.

(** [tag[key]] *)
Definition getitem (tag : Tag) (key : string) : result string :=
  match tag_attrs tag !! key with
  | Some v => Ok v
  | None => Raise KeyError
  end.

(** [soup(name)[0][key]] *)
Definition attr_of (soup : Soup) (name key : string) : result string :=
  tag ← first (find_all soup name);
  getitem tag key.

(** ** The calculator's state *)

(** A value of a results row: a string or a float. *)
Inductive cell : Type :=
| Str (s : string)
| Float (q : Q).

(** [self.row_data] and the rows of results.csv. *)
Record world : Type := {
  row_data : list cell;
  results_csv : list (list cell)
}.

Inductive outcome (A : Type) : Type :=
| Return (a : A) (w : world)
| Raised (e : exn) (w : world).
Arguments Return {A} a w.
Arguments Raised {A} e w.

Definition M (A : Type) : Type := world -> outcome A.

(** A stored record, as [json.load] decodes it: the keys "name", "alt-tags",
    "href-tags", "label-tags" and "input-tags". *)
Record FragmentRecord : Type := {
  name : string;
  alt_tags : list string;
  href_tags : list string;
  label_tags : list string;
  input_tags : list string
}.

Definition ret {A} (a : A) : M A := fun w => Return a w.

Definition bind {A B} (m : M A) (k : A -> M B) : M B :=
  fun w => match m w with
           | Return a w' => k a w'
           | Raised e w' => Raised e w'
           end.

Definition lift {A} (r : result A) : M A :=
  fun w => match r with
           | Ok a => Return a w
           | Raise e => Raised e w
           end.

#[export] Instance M_ret : MRet M := @ret.
#[export] Instance M_bind : MBind M :=
  fun A B k m => bind m k.

(** [self.row_data.append(v)] *)
Definition push (v : cell) (w : world) : world :=
  {| row_data := row_data w ++ [v]; results_csv := results_csv w |}.

Definition row_data_append (v : cell) : M unit :=
  fun w => Return tt (push v w).

(** [try: body / except Exception: handler]; the handler runs in the state
    the body left. *)
Definition try_except_Exception {A} (body handler : M A) : M A :=
  fun w => match body w with
           | Return a w' => Return a w'
           | Raised _ w' => handler w'
           end.

(** ** Counting, on the specification side *)

Fixpoint count_where {A} (p : A -> bool) (xs : list A) : nat :=
  match xs with
  | [] => 0
  | x :: xs' => (if p x then 1 else 0) + count_where p xs'
  end.

(** [a / b] as a float cell, for [b] positive. *)
Definition ratio (a b : nat) : Q := Qred (Z.of_nat a # Pos.of_nat b).

Definition in_unit_interval (q : Q) : Prop := (0 <= q)%Q /\ (q <= 1)%Q.

(** A metric value: the sentinel or a number of [0,1]. *)
Definition metric_value (c : cell) : Prop :=
  match c with
  | Str s => s = "No Data"
  | Float q => in_unit_interval q
  end.

(** ** The browser

    The headless browser opened on one URL: what loading the page does
    (lines 236-243) and, for the k-th read of [browser.page_source], either an
    exception or what [soup.find("div", {"class": FIXED_URL_LOOKUP})] gives on
    the parsed source: the text of the element found, or [None]. *)
Record Browser : Type := {
  load_page : result unit;
  page_source : nat -> result (option string)
}.

(** ** The fragments of the examples

    The documents html.parser builds for the fragments the examples use; a
    markup outside the table is read as text without elements. *)

Definition element (name : string) (attrs : list (string * string)) : Tag :=
  {| tag_name := name; tag_attrs := list_to_map attrs |}.

Definition document (name : string) (attrs : list (string * string))
    (text : string) : Soup :=
  {| soup_tags := [element name attrs]; soup_text := text |}.

Definition parsed_fragments : list (string * Soup) :=
  [ ("<img alt='a photo'>", document "img" [("alt", "a photo")] "");
    ("<img alt=''>", document "img" [("alt", "")] "");
    ("<img alt='Image of a cat'>", document "img" [("alt", "Image of a cat")] "");
    ("<img src='logo.png'>", document "img" [("src", "logo.png")] "");
    ("<a href='/products/shoes'>Shoes</a>",
      document "a" [("href", "/products/shoes")] "Shoes");
    ("<a href='/shoes'>shoes</a>", document "a" [("href", "/shoes")] "shoes");
    ("<a href='/about'></a>", document "a" [("href", "/about")] "");
    ("<a name='top'>shoes</a>", document "a" [("name", "top")] "shoes");
    ("<input id='x'>", document "input" [("id", "x")] "");
    ("<input id='y'>", document "input" [("id", "y")] "");
    ("<input id='x' hidden>", document "input" [("id", "x"); ("hidden", "")] "");
    ("<input type='text'>", document "input" [("type", "text")] "");
    ("<label for='x-field'>Name</label>",
      document "label" [("for", "x-field")] "Name");
    ("<label for='x'>Name</label>", document "label" [("for", "x")] "Name");
    ("<label>Name</label>", document "label" [] "Name") ].

Definition html_parser (markup : string) : Soup :=
  match (list_to_map parsed_fragments : gmap string Soup) !! markup with
  | Some soup => soup
  | None => {| soup_tags := []; soup_text := markup |}
  end.

(** A browser that cannot be started, and one that shows the percentage on
    the second read of the page. *)
Definition no_browser (url : string) : Browser :=
  {| load_page := Raise (WebDriverException "chrome not reachable");
     page_source := fun _ => Raise (WebDriverException "no session") |}.

Definition slow_browser (url : string) : Browser :=
  {| load_page := Ok tt;
     page_source := fun k => if k =? 0 then Ok None else Ok (Some "87%") |}.

Definition empty_world : world := {| row_data := []; results_csv := [] |}.

(** A site tagged accessibly, a site without any of the four tags, and a
    site one of whose links was stored without its href. *)
Definition accessible_site : FragmentRecord :=
  {| name := "a.com";
     alt_tags := ["<img alt='a photo'>"];
     href_tags := ["<a href='/shoes'>shoes</a>"];
     label_tags := ["<label for='x-field'>Name</label>"];
     input_tags := ["<input id='x'>"] |}.

Definition empty_site : FragmentRecord :=
  {| name := "b.com";
     alt_tags := []; href_tags := []; label_tags := []; input_tags := [] |}.

Definition broken_site : FragmentRecord :=
  {| name := "c.com";
     alt_tags := ["<img alt=''>"];
     href_tags := ["<a href='/about'></a>"; "<a name='top'>shoes</a>";
                   "<a href='/shoes'>shoes</a>"];
     label_tags := [];
     input_tags := [] |}.

(** ** A page for the examples of the scraper

    The source of the home page of a.com, the document html.parser builds
    from it, the markup [str] gives for its elements, and a browser that
    reaches a.com and fails on down.example. *)

Definition home_page_source : string :=
  "<img alt='a photo'><img src='logo.png'><a href='/shoes'>shoes</a><a name='top'>shoes</a><label for='x-field'>Name</label><input id='x'>".

Definition home_page : Soup :=
  {| soup_tags :=
       [ element "img" [("alt", "a photo")];
         element "img" [("src", "logo.png")];
         element "a" [("href", "/shoes")];
         element "a" [("name", "top")];
         element "label" [("for", "x-field")];
         element "input" [("id", "x")] ];
     soup_text := "shoesshoesName" |}.

Definition page_parser (markup : string) : Soup :=
  if String.eqb markup home_page_source then home_page
  else if String.eqb markup "<input id=''>" then document "input" [("id", "")] ""
  else html_parser markup.

Definition element_markup (elem : Tag) : string :=
  if String.eqb (tag_name elem) "img" then
    match tag_attrs elem !! "alt" with
    | Some _ => "<img alt='a photo'>"
    | None => "<img src='logo.png'>"
    end
  else if String.eqb (tag_name elem) "a" then
    match tag_attrs elem !! "href" with
    | Some _ => "<a href='/shoes'>shoes</a>"
    | None => "<a name='top'>shoes</a>"
    end
  else if String.eqb (tag_name elem) "label" then
    "<label for='x-field'>Name</label>"
  else "<input id='x'>".

Definition web (url : string) : result string :=
  if String.eqb url "https://a.com" then Ok home_page_source
  else Raise (WebDriverException "timeout").

Section Calculator.

(** [BeautifulSoup(markup, "html.parser")] *)
Variable BeautifulSoup : string -> Soup.

(** [webdriver.Chrome(options=options)] once it is sent to a URL. *)
Variable Chrome : string -> Browser.

(** *** ITAA *)

(** The test of lines 116-120 on [alt_text]. *)
Definition meaningful_alt (alt_text : string) : bool :=
  negb (String.eqb (Py.lower alt_text) "image")
  && negb (String.eqb alt_text "")
  && negb (Py.contains "graphic of" (Py.lower alt_text))
  && negb (Py.contains "image of" (Py.lower alt_text))
  && negb (Py.contains "picture of" (Py.lower alt_text))
  && negb (Py.contains "this is an image of" (Py.lower alt_text)).

(** The body of the loop over [img_tags]. *)
Definition alt_body (tag : string) (count_alt : nat) : result nat :=
  try_except_KeyError
    (let soup := BeautifulSoup tag in
     alt_text ← attr_of soup "img" "alt";
     if meaningful_alt alt_text then Ok (count_alt + 1) else Ok count_alt)
    (Ok count_alt).

Definition _calculate_alt_metric (img_tags : list string) : M unit :=
  if length img_tags =? 0 then row_data_append (Str "No Data")
  else
    count_alt ← lift (for_each img_tags alt_body 0);
    v ← lift (truediv count_alt (length img_tags));
    row_data_append (Float v).

(** *** HAM *)

(** The loop over [soup.text.split(" ")]: [flag] becomes [True] at the first
    token found in the href, and the loop is left. *)
Fixpoint href_tokens (soup : Soup) (tokens : list string) (flag : bool)
  : result bool :=
  match tokens with
  | [] => Ok flag
  | curr_str :: tokens' =>
      href ← attr_of soup "a" "href";
      if Py.contains curr_str href then Ok true
      else href_tokens soup tokens' flag
  end.

(** The body of the loop over [href_elements], on the method's two
    variables [count_href] and [flag]. *)
Definition href_body (curr_href : string) (vars : nat * bool)
  : result (nat * bool) :=
  let soup := BeautifulSoup curr_href in
  flag ← href_tokens soup (Py.split_space (soup_text soup)) (snd vars);
  let count_href := if (flag : bool) then fst vars + 1 else fst vars in
  Ok (count_href, false).

Definition _calculate_hyperlinks_metric (href_elements : list string)
  : M unit :=
  if length href_elements =? 0 then row_data_append (Str "No Data")
  else
    vars ← lift (for_each href_elements href_body (0, false));
    v ← lift (truediv (fst vars) (length href_elements));
    row_data_append (Float v).

(** *** LIM *)

(** Lines 192-199, the loop entered when [label_tags] is empty: the first
    input without [hidden] appends 0.0 and returns from the method;
    [otherwise] is the rest of the method, reached when the loop ends. *)
Fixpoint unlabeled_inputs (input_tags : list string) (otherwise : M unit)
  : M unit :=
  match input_tags with
  | [] => otherwise
  | curr_input :: input_tags' =>
      let soup := BeautifulSoup curr_input in
      match attr_of soup "input" "hidden" with
      | Ok _ => unlabeled_inputs input_tags' otherwise
      | Raise KeyError => row_data_append (Float 0)
      | Raise e => lift (Raise e)
      end
  end.

(** Lines 207-214, the loop over [label_tags] for one input. *)
Fixpoint label_scan (soup : Soup) (input_id : string)
    (label_tags : list string) (count_label_input : nat) : result nat :=
  match label_tags with
  | [] => Ok count_label_input
  | curr_label :: label_tags' =>
      let soup_label := BeautifulSoup curr_label in
      for_ ← attr_of soup_label "label" "for";
      if Py.contains input_id for_ then
        match attr_of soup "input" "hidden" with
        | Ok _ => label_scan soup input_id label_tags' count_label_input
        | Raise KeyError => Ok (count_label_input + 1)
        | Raise e => Raise e
        end
      else label_scan soup input_id label_tags' count_label_input
  end.

(** Lines 204-216, the body of the loop over [input_tags]. *)
Definition label_input_body (label_tags : list string) (curr_input : string)
    (count_label_input : nat) : result nat :=
  let soup := BeautifulSoup curr_input in
  try_except_KeyError
    (input_id ← attr_of soup "input" "id";
     label_scan soup input_id label_tags count_label_input)
    (Ok count_label_input).

(** Lines 201-218. *)
Definition label_input_count (label_tags input_tags : list string) : M unit :=
  count_label_input ←
    lift (for_each input_tags (label_input_body label_tags) 0);
  v ← lift (truediv count_label_input (length input_tags));
  row_data_append (Float v).

Definition _calculate_label_input_metric (label_tags input_tags : list string)
  : M unit :=
  if length input_tags =? 0 then row_data_append (Str "No Data")
  else if length label_tags =? 0 then
    unlabeled_inputs input_tags (label_input_count label_tags input_tags)
  else label_input_count label_tags input_tags.

(** *** The accessibility percentage *)


Definition BASE_URL : string :=
  "https://www.webaccessibility.com/results/?url=https%3A%2F%2F".

(** [found.text], an [AttributeError] on [None]. *)
Definition text_of (found : option string) : result string :=
  match found with
  | Some t => Ok t
  | None => Raise AttributeError
  end.

Definition _get_accessibility_percent (target_url : string) : M unit :=
  try_except_Exception
    (let browser := Chrome (BASE_URL +:+ target_url +:+ "/") in
     _ ← lift (load_page browser);
     source ← lift (page_source browser 0);
     try_except_Exception
       (temp ← lift (text_of source);
        row_data_append (Str temp))
       (source ← lift (page_source browser 1);
        try_except_Exception
          (temp ← lift (text_of source);
           row_data_append (Str temp))
          (row_data_append (Str "-1%"))))
    (row_data_append (Str "-1%")).

(** *** The aggregator *)

(** [writer.writerow(self.row_data)] on results.csv opened for appending. *)
Definition writerow : M unit :=
  fun w => Return tt {| row_data := row_data w;
                        results_csv := results_csv w ++ [row_data w] |}.

(** [self.row_data = []] *)
Definition clear_row_data : M unit :=
  fun w => Return tt {| row_data := []; results_csv := results_csv w |}.

(** The body of the loop of [calculate_metrics], on the decoded file. *)
Definition calculate_metrics_body (data : FragmentRecord) : M unit :=
  row_data_append (Str (name data));;
  _calculate_alt_metric (alt_tags data);;
  _calculate_hyperlinks_metric (href_tags data);;
  _calculate_label_input_metric (label_tags data) (input_tags data);;
  _get_accessibility_percent (name data);;
  writerow;;
  clear_row_data.

(** [calculate_metrics], on the decoded files in the order of [os.listdir]. *)
Fixpoint calculate_metrics (listdir : list FragmentRecord) : M unit :=
  match listdir with
  | [] => ret tt
  | data :: listdir' =>
      calculate_metrics_body data;;
      calculate_metrics listdir'
  end.

(** [MetricsCalculator(path)]: [csv] is what results.csv holds already. *)
Definition __init__ (listdir : list FragmentRecord) (csv : list (list cell))
  : outcome unit :=
  calculate_metrics listdir {| row_data := []; results_csv := csv |}.

(** ** The data-model invariant and the specification's predicates *)

(** The fragment holds an element of that tag name. *)
Definition is_element (name markup : string) : Prop :=
  find_all (BeautifulSoup markup) name <> [].

(** The first element of that name carries the attribute. *)
Definition has_attr (name key markup : string) : Prop :=
  exists v, attr_of (BeautifulSoup markup) name key = Ok v.

(** The element is there and the attribute is not. *)
Definition lacks_attr (name key markup : string) : Prop :=
  attr_of (BeautifulSoup markup) name key = Raise KeyError.

(** Every fragment parses as an element of its tag, every link has an href. *)
Definition well_formed (data : FragmentRecord) : Prop :=
  Forall (is_element "img") (alt_tags data)
  /\ Forall (has_attr "a" "href") (href_tags data)
  /\ Forall (is_element "label") (label_tags data)
  /\ Forall (is_element "input") (input_tags data).

Definition boilerplate : list string :=
  ["graphic of"; "image of"; "picture of"; "this is an image of"].

(** ITAA, in the specification's words: the alt attribute exists and,
    compared without case, is not "image", is not empty and contains no
    boilerplate phrase. *)
Definition alt_counts (markup : string) : bool :=
  match attr_of (BeautifulSoup markup) "img" "alt" with
  | Ok alt =>
      negb (String.eqb (Py.lower alt) "image")
      && negb (String.eqb (Py.lower alt) "")
      && forallb (fun phrase => negb (Py.contains phrase (Py.lower alt)))
           boilerplate
  | Raise _ => false
  end.

(** HAM, in the specification's words: some token of the visible text, split
    on single spaces, is a substring of the href. *)
Definition link_accessible (soup : Soup) : bool :=
  match attr_of soup "a" "href" with
  | Ok href =>
      existsb (fun token => Py.contains token href)
        (Py.split_space (soup_text soup))
  | Raise _ => false
  end.

Definition link_counts (markup : string) : bool :=
  link_accessible (BeautifulSoup markup).

(** [sub] occurs in [s]. *)
Definition substring_of (sub s : string) : Prop :=
  exists before after, s = before +:+ sub +:+ after.

(** What the method appends, on fragments that all hold an [img]. *)
Definition alt_metric_cell (img_tags : list string) : cell :=
  match img_tags with
  | [] => Str "No Data"
  | _ => Float (ratio (count_where alt_counts img_tags) (length img_tags))
  end.

(** What the method appends, on links that all carry an href. *)
Definition hyperlinks_metric_cell (href_elements : list string) : cell :=
  match href_elements with
  | [] => Str "No Data"
  | _ => Float (ratio (count_where link_counts href_elements)
                  (length href_elements))
  end.

(** LIM as the code counts an input: the labels are read in order up to the
    first one without a [for], and the input counts when its id occurs in
    one of those and the input is not hidden. *)
Fixpoint labels_reach (input_id : string) (label_tags : list string) : bool :=
  match label_tags with
  | [] => false
  | curr_label :: label_tags' =>
      match attr_of (BeautifulSoup curr_label) "label" "for" with
      | Ok for_ => Py.contains input_id for_ || labels_reach input_id label_tags'
      | Raise _ => false
      end
  end.

Definition input_counts (label_tags : list string) (markup : string) : bool :=
  match attr_of (BeautifulSoup markup) "input" "id",
        attr_of (BeautifulSoup markup) "input" "hidden" with
  | Ok input_id, Raise KeyError => labels_reach input_id label_tags
  | _, _ => false
  end.

(** LIM, in the specification's words: the input has an id, is not hidden,
    and its id is a substring of the [for] of some label. *)
Definition label_names (input_id markup : string) : bool :=
  match attr_of (BeautifulSoup markup) "label" "for" with
  | Ok for_ => Py.contains input_id for_
  | Raise _ => false
  end.

Definition input_matched (label_tags : list string) (markup : string) : bool :=
  match attr_of (BeautifulSoup markup) "input" "id",
        attr_of (BeautifulSoup markup) "input" "hidden" with
  | Ok input_id, Raise KeyError => existsb (label_names input_id) label_tags
  | _, _ => false
  end.

(** What the method appends, on fragments that hold their elements. *)
Definition label_input_metric_cell (label_tags input_tags : list string)
  : cell :=
  match input_tags with
  | [] => Str "No Data"
  | _ => Float (ratio (count_where (input_counts label_tags) input_tags)
                  (length input_tags))
  end.

(** The string [_get_accessibility_percent] appends for a site. *)
Definition accessibility_percent (target_url : string) : string :=
  let browser := Chrome (BASE_URL +:+ target_url +:+ "/") in
  match load_page browser, page_source browser 0 with
  | Ok _, Ok (Some temp) => temp
  | Ok _, Ok None =>
      match page_source browser 1 with
      | Ok (Some temp) => temp
      | _ => "-1%"
      end
  | _, _ => "-1%"
  end.

(** The row of a record: [(name, itaa, ham, lim, accessibility_percent)]. *)
Definition result_row (data : FragmentRecord) : list cell :=
  [ Str (name data);
    alt_metric_cell (alt_tags data);
    hyperlinks_metric_cell (href_tags data);
    label_input_metric_cell (label_tags data) (input_tags data);
    Str (accessibility_percent (name data)) ].

(** The three metric calls of one record, in the order of the loop. *)
Definition evaluate (data : FragmentRecord) : M unit :=
  _calculate_alt_metric (alt_tags data);;
  _calculate_hyperlinks_metric (href_tags data);;
  _calculate_label_input_metric (label_tags data) (input_tags data).

(** A method that appends the value [r] computes, or raises what it raises,
    whatever the state. *)
Definition emit (r : result cell) : M unit :=
  fun w => match r with
           | Ok v => Return tt (push v w)
           | Raise e => Raised e w
           end.

(** ** startup.py: the shards of the URL list

    The lines of the target CSV are cut into NUM_PROCESSES files
    temp_for_measurements/1.csv, 2.csv, ...; a file is known by its number. *)

(** [xs[a:b]] for indices that are not negative. *)
Definition slice {A} (xs : list A) (a b : nat) : list A :=
  drop a (take b xs).

(** [int(a / b)] on ints that are not negative: the float quotient cut to an
    int, which is the integer quotient for the lengths a list of lines has. *)
Definition int_truediv (a b : nat) : result nat :=
  if b =? 0 then Raise ZeroDivisionError else Ok (a / b).

(** [a % b] *)
Definition modulo (a b : nat) : result nat :=
  if b =? 0 then Raise ZeroDivisionError else Ok (a mod b).

(** The loop over [range(0, total)], on the files written so far and the
    variable [filename]; writing the last file leaves the loop. *)
Fixpoint shard_loop (csv_file : list string) (div_j NUM_PROCESSES : nat)
    (range : list nat) (files : gmap nat (list string)) (filename : nat)
  : result (gmap nat (list string)) :=
  match range with
  | [] => Ok files
  | j :: range' =>
      r ← modulo j div_j;
      if r =? 0 then
        let files := <[filename := slice csv_file j (j + div_j)]> files in
        let filename := filename + 1 in
        if filename =? NUM_PROCESSES then
          Ok (<[filename := drop (j + div_j) csv_file]> files)
        else shard_loop csv_file div_j NUM_PROCESSES range' files filename
      else shard_loop csv_file div_j NUM_PROCESSES range' files filename
  end.

(** The block under [with open(PATH_TO_TARGET_URLS, "r")]. *)
Definition write_shards (NUM_PROCESSES : nat) (csv_file : list string)
    (files : gmap nat (list string)) : result (gmap nat (list string)) :=
  let total := length csv_file in
  div_j ← int_truediv total NUM_PROCESSES;
  shard_loop csv_file div_j NUM_PROCESSES (seq 0 total) files 1.

(** The lines of file [k], none when the file is not there. *)
Definition shard (files : gmap nat (list string)) (k : nat) : list string :=
  default [] (files !! k).

(** ** html_scraper.py *)

(** Lines 93-107 for one URL: the source of the loaded page, or the
    exception the browser raised. *)
Variable page_source_of : string -> result string.

(** [str(elem)] *)
Variable str_elem : Tag -> string.

Definition HTTPS_PREFIX : string := "https://".

(** [soup.findAll(name, key=True)] *)
Definition find_all_with (soup : Soup) (name key : string) : list Tag :=
  List.filter
    (fun t => String.eqb (tag_name t) name
              && match tag_attrs t !! key with
                 | Some _ => true
                 | None => false
                 end)
    (soup_tags soup).

(** What the scraper leaves behind: the class attribute [FAILURES], the
    JSON files of the output directory by file name, failures.txt once it is
    written, and the rows of results.csv. *)
Record disk : Type := {
  FAILURES : list string;
  json_files : gmap string FragmentRecord;
  failures_txt : option (list string);
  results : list (list cell)
}.

Inductive scrape_outcome : Type :=
| Finished (d : disk)
| Aborted (e : exn) (d : disk).

Definition _write_to_json (entry : FragmentRecord) (link : string) (d : disk)
  : disk :=
  {| FAILURES := FAILURES d;
     json_files := <[link +:+ ".json" := entry]> (json_files d);
     failures_txt := failures_txt d;
     results := results d |}.

Definition _add_to_json (link : string)
    (alt href label input : list string) (d : disk) : disk :=
  let entry :=
    {| name := link; alt_tags := alt; href_tags := href;
       label_tags := label; input_tags := input |} in
  _write_to_json entry link d.

Definition _parse_required_tags (soup : Soup) (link : string) (d : disk)
  : disk :=
  let alt_tags := map str_elem (find_all soup "img") in
  let href_tags := map str_elem (find_all_with soup "a" "href") in
  let label_tags := map str_elem (find_all soup "label") in
  let input_tags := map str_elem (find_all soup "input") in
  _add_to_json link alt_tags href_tags label_tags input_tags d.

Definition _scrape_html (link : string) (d : disk) : scrape_outcome :=
  match page_source_of (HTTPS_PREFIX +:+ link) with
  | Ok source =>
      let soup := BeautifulSoup source in
      Finished (_parse_required_tags soup link d)
  | Raise (WebDriverException _) =>
      Finished {| FAILURES := FAILURES d ++ [link];
                  json_files := json_files d;
                  failures_txt := failures_txt d;
                  results := results d |}
  | Raise e => Aborted e d
  end.

(** The loop of [_run_scraper] over the rows [csv.reader] yields;
    [line[-1]] is the last field of the row. *)
Fixpoint scrape_lines (csv_file : list (list string)) (d : disk)
  : scrape_outcome :=
  match csv_file with
  | [] => Finished d
  | line :: csv_file' =>
      match last line with
      | None => Aborted IndexError d
      | Some link =>
          match _scrape_html link d with
          | Finished d' => scrape_lines csv_file' d'
          | Aborted e d' => Aborted e d'
          end
      end
  end.

(** [_run_scraper]; [listdir] is what the directory of the final CSV holds
    when the calculator is started on it. *)
Definition _run_scraper (csv_file : list (list string))
    (listdir : list FragmentRecord) (d : disk) : scrape_outcome :=
  match scrape_lines csv_file d with
  | Finished d1 =>
      let d2 := {| FAILURES := FAILURES d1;
                   json_files := json_files d1;
                   failures_txt := Some (FAILURES d1);
                   results := results d1 |} in
      match __init__ listdir (results d2) with
      | Return _ w =>
          Finished {| FAILURES := FAILURES d2;
                      json_files := json_files d2;
                      failures_txt := failures_txt d2;
                      results := results_csv w |}
      | Raised e w =>
          Aborted e {| FAILURES := FAILURES d2;
                       json_files := json_files d2;
                       failures_txt := failures_txt d2;
                       results := results_csv w |}
      end
  | Aborted e d1 => Aborted e d1
  end.

(** The links of the rows, and whether the browser fails on a link. *)
Definition links_of (csv_file : list (list string)) : list string :=
  omap last csv_file.

Definition fails (link : string) : bool :=
  match page_source_of (HTTPS_PREFIX +:+ link) with
  | Ok _ => false
  | Raise _ => true
  end.

(** Parsing the markup of an element gives the element back: the first
    element of its name in [BeautifulSoup(str(elem))] has its attributes. *)
Definition reparses (elem : Tag) : Prop :=
  exists elem' others,
    find_all (BeautifulSoup (str_elem elem)) (tag_name elem) = elem' :: others
    /\ tag_attrs elem' = tag_attrs elem.

(** The record [_parse_required_tags] stores for a page. *)
Definition stored_entry (soup : Soup) (link : string) : FragmentRecord :=
  {| name := link;
     alt_tags := map str_elem (find_all soup "img");
     href_tags := map str_elem (find_all_with soup "a" "href");
     label_tags := map str_elem (find_all soup "label");
     input_tags := map str_elem (find_all soup "input") |}.

(** The test of ITAA on an element of the page. *)
Definition img_counts (elem : Tag) : bool :=
  match tag_attrs elem !! "alt" with
  | Some alt => meaningful_alt alt
  | None => false
  end.

Definition empty_disk : disk :=
  {| FAILURES := []; json_files := ∅; failures_txt := None; results := [] |}.

(** * Facts *)

(** ** Strings *)

Lemma append_cons (c : ascii) (s r : string) :
  String c s +:+ r = String c (s +:+ r).
Proof. reflexivity. Qed.

Lemma startswith_append (s p : string) :
  Py.startswith s p = true <-> exists r, s = p +:+ r.
Proof.
  revert s; induction p as [|a p IH]; intros s; simpl.
  - split; [intros _; by exists s | done].
  - destruct s as [|b s].
    + split; [discriminate | intros [r Hr]; discriminate].
    + rewrite andb_true_iff, Ascii.eqb_eq, IH.
      split; [intros [-> [r ->]]; by exists r | intros [r Hr]].
      rewrite append_cons in Hr. split; [|exists r]; congruence.
Qed.

Lemma contains_substring (sub s : string) :
  Py.contains sub s = true <-> substring_of sub s.
Proof.
  unfold substring_of. induction s as [|c s IH]; simpl.
  - destruct (Py.startswith "" sub) eqn:Hp.
    + split; [intros _ | done].
      apply startswith_append in Hp as [r Hr]. by exists "", r.
    + split; [done | intros (a & b & Hab)].
      destruct a; [|discriminate]. change ("" +:+ sub +:+ b) with (sub +:+ b) in Hab.
      assert (Py.startswith "" sub = true) by (apply startswith_append; eauto).
      congruence.
  - destruct (Py.startswith (String c s) sub) eqn:Hp.
    + split; [intros _ | done].
      apply startswith_append in Hp as [r Hr]. by exists "", r.
    + rewrite IH. split.
      * intros (a & b & ->). by exists (String c a), b.
      * intros (a & b & Hab). destruct a as [|c' a].
        -- change ("" +:+ sub +:+ b) with (sub +:+ b) in Hab.
           assert (Py.startswith (String c s) sub = true)
             by (apply startswith_append; eauto).
           congruence.
        -- rewrite append_cons in Hab. exists a, b. congruence.
Qed.

Lemma contains_empty (s : string) : Py.contains "" s = true.
Proof. destruct s; reflexivity. Qed.

Lemma lower_empty (s : string) : Py.lower s = "" <-> s = "".
Proof. destruct s; simpl; split; congruence. Qed.

Lemma split_space_not_nil (s : string) : Py.split_space s <> [].
Proof.
  induction s as [|c s IH]; simpl; [done|].
  destruct (Ascii.eqb c " "); [done|].
  by destruct (Py.split_space s).
Qed.

(** Splitting on spaces loses nothing: joining the tokens with a space gives
    the text back. *)
Lemma join_split_space (s : string) : Py.join_space (Py.split_space s) = s.
Proof.
  induction s as [|c s IH]; simpl; [done|].
  pose proof (split_space_not_nil s) as Hne.
  destruct (Ascii.eqb c " ") eqn:Hc.
  - apply Ascii.eqb_eq in Hc as ->.
    destruct (Py.split_space s) as [|tok toks]; [done|].
    simpl in *. by rewrite IH.
  - destruct (Py.split_space s) as [|tok toks]; [done|].
    destruct toks; simpl in *; by rewrite <- IH.
Qed.

(** No token holds a space. *)
Lemma split_space_tokens (s tok : string) :
  In tok (Py.split_space s) -> Py.contains " " tok = false.
Proof.
  revert tok; induction s as [|c s IH]; simpl; intros tok.
  - by intros [<-|[]].
  - destruct (Ascii.eqb c " ") eqn:Hc.
    + intros [<-|Hin]; [done | by apply IH].
    + pose proof (split_space_not_nil s) as Hne.
      destruct (Py.split_space s) as [|t ts]; [done|].
      intros [<-|Hin]; [|apply IH; by right].
      cbn [Py.contains Py.startswith].
      rewrite Ascii.eqb_sym, Hc. cbn [andb].
      apply IH. by left.
Qed.

(** ** Quotients *)

Lemma pos_of_nat_Z (b : nat) : b <> 0 -> Z.pos (Pos.of_nat b) = Z.of_nat b.
Proof.
  intros Hb. rewrite <- (Nat2Pos.id b) at 2 by done.
  by rewrite positive_nat_Z.
Qed.

Lemma truediv_ratio (a b : nat) : b <> 0 -> truediv a b = Ok (ratio a b).
Proof.
  intros Hb. unfold truediv, ratio.
  by destruct (Nat.eqb_spec b 0).
Qed.

(** The cell holds the quotient of the two integers. *)
Lemma ratio_quotient (a b : nat) :
  b <> 0 ->
  (ratio a b == inject_Z (Z.of_nat a) / inject_Z (Z.of_nat b))%Q.
Proof.
  intros Hb. unfold ratio. rewrite Qred_correct, Qmake_Qdiv.
  by rewrite pos_of_nat_Z.
Qed.

Lemma ratio_unit_interval (a b : nat) :
  a <= b -> b <> 0 -> in_unit_interval (ratio a b).
Proof.
  intros Hab Hb. unfold in_unit_interval, ratio.
  rewrite Qred_correct. unfold Qle; simpl.
  rewrite pos_of_nat_Z by done. lia.
Qed.

Lemma ratio_zero (b : nat) : ratio 0 b = 0%Q.
Proof. reflexivity. Qed.

Lemma ratio_full (b : nat) : b <> 0 -> ratio b b = 1%Q.
Proof.
  intros Hb. unfold ratio.
  change 1%Q with (Qred 1). apply Qred_complete.
  unfold Qeq; simpl. rewrite pos_of_nat_Z by done. lia.
Qed.

Lemma count_where_le {A} (p : A -> bool) (xs : list A) :
  count_where p xs <= length xs.
Proof. induction xs as [|x xs IH]; simpl; [lia|]. destruct (p x); lia. Qed.

Lemma count_where_app {A} (p : A -> bool) (xs ys : list A) :
  count_where p (xs ++ ys) = count_where p xs + count_where p ys.
Proof. induction xs as [|x xs IH]; simpl; [done|]. rewrite IH. lia. Qed.

(** ** Reading attributes *)

Lemma attr_of_element (name key markup : string) :
  is_element name markup ->
  has_attr name key markup \/ lacks_attr name key markup.
Proof.
  unfold is_element, has_attr, lacks_attr, attr_of, getitem.
  destruct (find_all (BeautifulSoup markup) name) as [|tag tags]; [done|].
  intros _. simpl.
  destruct (tag_attrs tag !! key) as [v|]; [left; by exists v | by right].
Qed.

Lemma has_attr_element (name key markup : string) :
  has_attr name key markup -> is_element name markup.
Proof.
  unfold is_element, has_attr, attr_of. intros [v Hv] Hnil.
  by rewrite Hnil in Hv.
Qed.

Lemma lacks_attr_element (name key markup : string) :
  lacks_attr name key markup -> is_element name markup.
Proof.
  unfold is_element, lacks_attr, attr_of. intros Hk Hnil.
  by rewrite Hnil in Hk.
Qed.

(** ** The loops, run on well-formed fragments *)

Lemma for_each_app {A S} (body : A -> S -> result S) (xs ys : list A) (acc : S) :
  for_each (xs ++ ys) body acc
  = rbind (for_each xs body acc) (for_each ys body).
Proof.
  revert acc; induction xs as [|x xs IH]; intros acc; simpl; [done|].
  destruct (body x acc); simpl; [apply IH | done].
Qed.

(** The test of the code is the test of the specification. *)
Lemma meaningful_alt_words (alt : string) :
  meaningful_alt alt
  = negb (String.eqb (Py.lower alt) "image")
    && negb (String.eqb (Py.lower alt) "")
    && forallb (fun phrase => negb (Py.contains phrase (Py.lower alt)))
         boilerplate.
Proof.
  unfold meaningful_alt, boilerplate. cbn [forallb].
  replace (String.eqb (Py.lower alt) "") with (String.eqb alt "")
    by (by destruct alt).
  by rewrite andb_true_r, <- !andb_assoc.
Qed.

Lemma alt_body_counts (tag : string) (count_alt : nat) :
  is_element "img" tag ->
  alt_body tag count_alt
  = Ok (count_alt + if alt_counts tag then 1 else 0).
Proof.
  intros Himg. unfold alt_body, alt_counts.
  destruct (attr_of_element "img" "alt" tag Himg) as [[alt Halt]|Hno].
  - rewrite Halt. simpl. rewrite <- meaningful_alt_words.
    destruct (meaningful_alt alt); simpl; f_equal; lia.
  - rewrite Hno. simpl. f_equal; lia.
Qed.

Lemma alt_loop_counts (img_tags : list string) (count_alt : nat) :
  Forall (is_element "img") img_tags ->
  for_each img_tags alt_body count_alt
  = Ok (count_alt + count_where alt_counts img_tags).
Proof.
  intros Hwf; revert count_alt.
  induction Hwf as [|tag tags Htag _ IH]; intros count_alt; simpl.
  - f_equal; lia.
  - rewrite alt_body_counts by done. simpl. rewrite IH. f_equal; lia.
Qed.

Lemma alt_metric_appends (img_tags : list string) (w : world) :
  Forall (is_element "img") img_tags ->
  _calculate_alt_metric img_tags w
  = Return tt (push (alt_metric_cell img_tags) w).
Proof.
  intros Hwf. unfold _calculate_alt_metric, alt_metric_cell.
  destruct img_tags as [|tag tags]; [done|].
  cbn [length Nat.eqb]. unfold mbind, M_bind, bind, lift.
  rewrite alt_loop_counts by done.
  by rewrite truediv_ratio.
Qed.

(** *** HAM *)

Lemma href_tokens_found (soup : Soup) (href : string) (tokens : list string)
    (flag : bool) :
  attr_of soup "a" "href" = Ok href ->
  href_tokens soup tokens flag
  = Ok (existsb (fun token => Py.contains token href) tokens || flag).
Proof.
  intros Hhref. induction tokens as [|tok toks IH]; simpl; [done|].
  rewrite Hhref. simpl. by destruct (Py.contains tok href).
Qed.

Lemma href_tokens_raises (soup : Soup) (e : exn) (tokens : list string)
    (flag : bool) :
  attr_of soup "a" "href" = Raise e -> tokens <> [] ->
  href_tokens soup tokens flag = Raise e.
Proof. intros He Hne. destruct tokens; [done|]. simpl. by rewrite He. Qed.

Lemma href_body_counts (curr_href : string) (count_href : nat) :
  has_attr "a" "href" curr_href ->
  href_body curr_href (count_href, false)
  = Ok (count_href + (if link_counts curr_href then 1 else 0), false).
Proof.
  intros [href Hhref]. unfold href_body, link_counts, link_accessible.
  rewrite Hhref, (href_tokens_found _ href) by done. simpl.
  rewrite orb_false_r.
  destruct (existsb _ _); do 2 f_equal; lia.
Qed.

Lemma href_body_raises (curr_href : string) (e : exn) (vars : nat * bool) :
  attr_of (BeautifulSoup curr_href) "a" "href" = Raise e ->
  href_body curr_href vars = Raise e.
Proof.
  intros He. unfold href_body.
  rewrite (href_tokens_raises _ e); [done..|apply split_space_not_nil].
Qed.

Lemma href_loop_counts (href_elements : list string) (count_href : nat) :
  Forall (has_attr "a" "href") href_elements ->
  for_each href_elements href_body (count_href, false)
  = Ok (count_href + count_where link_counts href_elements, false).
Proof.
  intros Hwf; revert count_href.
  induction Hwf as [|tag tags Htag _ IH]; intros count_href; simpl.
  - do 2 f_equal; lia.
  - rewrite href_body_counts by done. simpl. rewrite IH.
    do 2 f_equal; lia.
Qed.

Lemma hyperlinks_metric_appends (href_elements : list string) (w : world) :
  Forall (has_attr "a" "href") href_elements ->
  _calculate_hyperlinks_metric href_elements w
  = Return tt (push (hyperlinks_metric_cell href_elements) w).
Proof.
  intros Hwf. unfold _calculate_hyperlinks_metric, hyperlinks_metric_cell.
  destruct href_elements as [|tag tags]; [done|].
  cbn [length Nat.eqb]. unfold mbind, M_bind, bind, lift.
  rewrite href_loop_counts by done. cbn [fst].
  by rewrite truediv_ratio.
Qed.

(** A link that cannot be read stops the method with its exception. *)
Lemma hyperlinks_metric_raises (before after : list string) (tag : string)
    (e : exn) (w : world) :
  Forall (has_attr "a" "href") before ->
  attr_of (BeautifulSoup tag) "a" "href" = Raise e ->
  _calculate_hyperlinks_metric (before ++ tag :: after) w = Raised e w.
Proof.
  intros Hwf He. unfold _calculate_hyperlinks_metric.
  destruct (Nat.eqb_spec (length (before ++ tag :: after)) 0) as [Hlen|_].
  { rewrite length_app in Hlen. simpl in Hlen. lia. }
  unfold mbind, M_bind, bind, lift.
  rewrite for_each_app, href_loop_counts by done. simpl.
  by rewrite (href_body_raises _ e).
Qed.

(** *** LIM *)

Lemma unlabeled_inputs_all_hidden (input_tags : list string)
    (otherwise : M unit) :
  Forall (has_attr "input" "hidden") input_tags ->
  unlabeled_inputs input_tags otherwise = otherwise.
Proof.
  induction 1 as [|tag tags [v Hv] _ IH]; simpl; [done|].
  by rewrite Hv.
Qed.

Lemma unlabeled_inputs_short_circuit (before after : list string)
    (tag : string) (otherwise : M unit) (w : world) :
  Forall (has_attr "input" "hidden") before ->
  lacks_attr "input" "hidden" tag ->
  unlabeled_inputs (before ++ tag :: after) otherwise w
  = Return tt (push (Float 0) w).
Proof.
  intros Hbefore Htag.
  induction Hbefore as [|tag' tags [v Hv] _ IH]; simpl.
  - unfold lacks_attr in Htag. by rewrite Htag.
  - by rewrite Hv.
Qed.

Lemma unlabeled_inputs_cases (input_tags : list string) (otherwise : M unit)
    (w : world) :
  Forall (is_element "input") input_tags ->
  unlabeled_inputs input_tags otherwise w = Return tt (push (Float 0) w)
  \/ unlabeled_inputs input_tags otherwise w = otherwise w.
Proof.
  induction 1 as [|tag tags Htag _ IH]; simpl; [by right|].
  destruct (attr_of_element "input" "hidden" tag Htag) as [[v Hv]|Hno].
  - by rewrite Hv.
  - unfold lacks_attr in Hno. rewrite Hno. by left.
Qed.

Lemma label_scan_caught (soup : Soup) (input_id : string)
    (label_tags : list string) (count_label_input : nat) :
  Forall (is_element "label") label_tags ->
  try_except_KeyError
    (label_scan soup input_id label_tags count_label_input)
    (Ok count_label_input)
  = match attr_of soup "input" "hidden" with
    | Ok _ => Ok count_label_input
    | Raise KeyError =>
        Ok (count_label_input
            + if labels_reach input_id label_tags then 1 else 0)
    | Raise e => if labels_reach input_id label_tags then Raise e
                 else Ok count_label_input
    end.
Proof.
  induction 1 as [|curr_label labels Hlabel _ IH]; simpl.
  - destruct (attr_of soup "input" "hidden") as [v|[]]; f_equal; lia.
  - destruct (attr_of_element "label" "for" curr_label Hlabel)
      as [[for_ Hfor]|Hno].
    + rewrite Hfor. simpl. destruct (Py.contains input_id for_); simpl.
      * destruct (attr_of soup "input" "hidden") as [v|[]]; done.
      * done.
    + unfold lacks_attr in Hno. rewrite Hno. simpl.
      destruct (attr_of soup "input" "hidden") as [v|[]]; f_equal; lia.
Qed.

Lemma label_input_body_counts (label_tags : list string) (curr_input : string)
    (count_label_input : nat) :
  Forall (is_element "label") label_tags ->
  is_element "input" curr_input ->
  label_input_body label_tags curr_input count_label_input
  = Ok (count_label_input
        + if input_counts label_tags curr_input then 1 else 0).
Proof.
  intros Hlabels Hinput. unfold label_input_body, input_counts.
  destruct (attr_of_element "input" "id" curr_input Hinput)
    as [[input_id Hid]|Hno].
  - rewrite Hid. cbn [mbind result_bind rbind].
    rewrite label_scan_caught by done.
    destruct (attr_of_element "input" "hidden" curr_input Hinput)
      as [[v Hv]|Hh].
    + rewrite Hv. f_equal; lia.
    + unfold lacks_attr in Hh. by rewrite Hh.
  - unfold lacks_attr in Hno. rewrite Hno. simpl. f_equal; lia.
Qed.

Lemma label_input_loop_counts (label_tags input_tags : list string)
    (count_label_input : nat) :
  Forall (is_element "label") label_tags ->
  Forall (is_element "input") input_tags ->
  for_each input_tags (label_input_body label_tags) count_label_input
  = Ok (count_label_input
        + count_where (input_counts label_tags) input_tags).
Proof.
  intros Hlabels Hinputs; revert count_label_input.
  induction Hinputs as [|tag tags Htag _ IH]; intros count; simpl.
  - f_equal; lia.
  - rewrite label_input_body_counts by done. simpl. rewrite IH.
    f_equal; lia.
Qed.

Lemma label_input_count_appends (label_tags input_tags : list string)
    (w : world) :
  input_tags <> [] ->
  Forall (is_element "label") label_tags ->
  Forall (is_element "input") input_tags ->
  label_input_count label_tags input_tags w
  = Return tt (push (label_input_metric_cell label_tags input_tags) w).
Proof.
  intros Hne Hlabels Hinputs.
  unfold label_input_count, label_input_metric_cell.
  unfold mbind, M_bind, bind, lift.
  rewrite label_input_loop_counts by done.
  rewrite truediv_ratio by (by destruct input_tags).
  by destruct input_tags.
Qed.

Lemma input_counts_no_labels (markup : string) : input_counts [] markup = false.
Proof.
  unfold input_counts. simpl.
  destruct (attr_of _ "input" "id"); [|done].
  by destruct (attr_of _ "input" "hidden") as [v|[]].
Qed.

Lemma count_where_none {A} (p : A -> bool) (xs : list A) :
  (forall x, p x = false) -> count_where p xs = 0.
Proof. intros Hp. induction xs; simpl; [done|]. by rewrite Hp. Qed.

Lemma label_input_metric_cell_no_labels (input_tags : list string) :
  input_tags <> [] -> label_input_metric_cell [] input_tags = Float 0.
Proof.
  intros Hne. unfold label_input_metric_cell.
  rewrite count_where_none by apply input_counts_no_labels.
  by destruct input_tags.
Qed.

Lemma label_input_metric_appends (label_tags input_tags : list string)
    (w : world) :
  Forall (is_element "label") label_tags ->
  Forall (is_element "input") input_tags ->
  _calculate_label_input_metric label_tags input_tags w
  = Return tt (push (label_input_metric_cell label_tags input_tags) w).
Proof.
  intros Hlabels Hinputs. unfold _calculate_label_input_metric.
  destruct input_tags as [|tag tags]; [done|].
  cbn [length Nat.eqb].
  destruct label_tags as [|label labels]; cbn [length Nat.eqb].
  - destruct (unlabeled_inputs_cases (tag :: tags)
                (label_input_count [] (tag :: tags)) w Hinputs) as [->| ->].
    + by rewrite label_input_metric_cell_no_labels.
    + by apply label_input_count_appends.
  - by apply label_input_count_appends.
Qed.

(** *** The accessibility percentage *)

Lemma get_accessibility_percent_appends (target_url : string) (w : world) :
  _get_accessibility_percent target_url w
  = Return tt (push (Str (accessibility_percent target_url)) w).
Proof.
  unfold _get_accessibility_percent, accessibility_percent.
  unfold try_except_Exception, mbind, M_bind, bind, lift.
  destruct (load_page _); [|done].
  destruct (page_source _ 0) as [[temp|]|]; [done| |done].
  simpl. by destruct (page_source _ 1) as [[temp|]|].
Qed.

(** *** The aggregator *)

Lemma evaluate_appends (data : FragmentRecord) (w : world) :
  well_formed data ->
  evaluate data w
  = Return tt
      (push (label_input_metric_cell (label_tags data) (input_tags data))
         (push (hyperlinks_metric_cell (href_tags data))
            (push (alt_metric_cell (alt_tags data)) w))).
Proof.
  intros (Himg & Hhref & Hlabel & Hinput).
  unfold evaluate, mbind, M_bind, bind.
  rewrite alt_metric_appends by done.
  rewrite hyperlinks_metric_appends by done.
  by rewrite label_input_metric_appends.
Qed.

Lemma calculate_metrics_body_writes (data : FragmentRecord) (w : world) :
  well_formed data ->
  calculate_metrics_body data w
  = Return tt {| row_data := [];
                 results_csv :=
                   results_csv w ++ [row_data w ++ result_row data] |}.
Proof.
  intros (Himg & Hhref & Hlabel & Hinput).
  unfold calculate_metrics_body, mbind, M_bind, bind.
  cbn [row_data_append].
  rewrite alt_metric_appends by done.
  rewrite hyperlinks_metric_appends by done.
  rewrite label_input_metric_appends by done.
  rewrite get_accessibility_percent_appends.
  unfold writerow, clear_row_data, push, result_row. simpl.
  by rewrite <- !app_assoc.
Qed.

Lemma calculate_metrics_body_raises (data : FragmentRecord)
    (before after : list string) (tag : string) (e : exn) (w : world) :
  Forall (is_element "img") (alt_tags data) ->
  href_tags data = before ++ tag :: after ->
  Forall (has_attr "a" "href") before ->
  attr_of (BeautifulSoup tag) "a" "href" = Raise e ->
  calculate_metrics_body data w
  = Raised e (push (alt_metric_cell (alt_tags data))
                (push (Str (name data)) w)).
Proof.
  intros Himg Hhref Hbefore Htag.
  unfold calculate_metrics_body, mbind, M_bind, bind.
  cbn [row_data_append].
  rewrite alt_metric_appends by done.
  by rewrite Hhref, (hyperlinks_metric_raises _ _ _ e).
Qed.

Lemma calculate_metrics_writes (listdir : list FragmentRecord) (w : world) :
  Forall well_formed listdir ->
  row_data w = [] ->
  calculate_metrics listdir w
  = Return tt {| row_data := [];
                 results_csv := results_csv w ++ map result_row listdir |}.
Proof.
  intros Hwf; revert w.
  induction Hwf as [|data rest Hdata _ IH]; intros w Hrow; simpl.
  - unfold ret. destruct w; simpl in *. by rewrite Hrow, app_nil_r.
  - unfold mbind, M_bind, bind.
    rewrite calculate_metrics_body_writes by done.
    rewrite IH by done. simpl. by rewrite Hrow, <- app_assoc.
Qed.

Lemma calculate_metrics_app (first_files more_files : list FragmentRecord)
    (w : world) :
  calculate_metrics (first_files ++ more_files) w
  = bind (calculate_metrics first_files)
      (fun _ => calculate_metrics more_files) w.
Proof.
  revert w; induction first_files as [|data rest IH]; intros w; simpl; [done|].
  unfold mbind, M_bind, bind.
  destruct (calculate_metrics_body data w) as [[] w'|e w']; [|done].
  rewrite IH. done.
Qed.

(** ** The specification's predicates, unfolded *)

Lemma alt_counts_words (markup : string) :
  alt_counts markup = true
  <-> exists alt,
        attr_of (BeautifulSoup markup) "img" "alt" = Ok alt
        /\ Py.lower alt <> "image"
        /\ Py.lower alt <> ""
        /\ forall phrase, In phrase boilerplate ->
             ~ substring_of phrase (Py.lower alt).
Proof.
  unfold alt_counts.
  destruct (attr_of (BeautifulSoup markup) "img" "alt") as [alt|e].
  - rewrite !andb_true_iff, !negb_true_iff, !String.eqb_neq, forallb_forall.
    split.
    + intros [[Himage Hempty] Hphrases]. exists alt.
      repeat split; try done.
      intros phrase Hin Hsub. apply contains_substring in Hsub.
      specialize (Hphrases phrase Hin). by rewrite Hsub in Hphrases.
    + intros (alt' & [= <-] & Himage & Hempty & Hphrases).
      repeat split; try done.
      intros phrase Hin. apply negb_true_iff.
      destruct (Py.contains phrase (Py.lower alt)) eqn:Hc; [|done].
      apply contains_substring in Hc. by destruct (Hphrases phrase Hin).
  - split; [done | by intros (alt & ? & _)].
Qed.

Lemma link_accessible_words (soup : Soup) :
  link_accessible soup = true
  <-> exists href token,
        attr_of soup "a" "href" = Ok href
        /\ In token (Py.split_space (soup_text soup))
        /\ substring_of token href.
Proof.
  unfold link_accessible. destruct (attr_of soup "a" "href") as [href|e].
  - rewrite existsb_exists. split.
    + intros (token & Hin & Hc). exists href, token.
      by rewrite <- contains_substring.
    + intros (href' & token & [= <-] & Hin & Hsub). exists token.
      by rewrite contains_substring.
  - split; [done | by intros (? & ? & ? & _)].
Qed.

Lemma link_accessible_empty_text (soup : Soup) (href : string) :
  attr_of soup "a" "href" = Ok href -> soup_text soup = "" ->
  link_accessible soup = true.
Proof.
  intros Hhref Htext. unfold link_accessible. rewrite Hhref, Htext.
  simpl. by rewrite contains_empty.
Qed.

(** When every label carries a [for], the code counts exactly the inputs the
    specification calls matched. *)
Lemma input_counts_matched (label_tags : list string) (markup : string) :
  Forall (has_attr "label" "for") label_tags ->
  input_counts label_tags markup = input_matched label_tags markup.
Proof.
  intros Hfor. unfold input_counts, input_matched.
  destruct (attr_of _ "input" "id") as [input_id|]; [|done].
  destruct (attr_of _ "input" "hidden") as [|[]]; try done.
  induction Hfor as [|label labels [for_ Hfor] _ IH]; simpl; [done|].
  unfold label_names at 1. by rewrite Hfor, IH.
Qed.

(** ** Every method appends a value that depends on its arguments only *)

Lemma alt_metric_emits (img_tags : list string) :
  exists r, forall w, _calculate_alt_metric img_tags w = emit r w.
Proof.
  unfold _calculate_alt_metric.
  destruct (length img_tags =? 0); [by exists (Ok (Str "No Data"))|].
  unfold mbind, M_bind, bind, lift.
  destruct (for_each img_tags alt_body 0) as [count|e];
    [|by exists (Raise e)].
  destruct (truediv count (length img_tags)) as [v|e];
    [by exists (Ok (Float v)) | by exists (Raise e)].
Qed.

Lemma hyperlinks_metric_emits (href_elements : list string) :
  exists r, forall w, _calculate_hyperlinks_metric href_elements w = emit r w.
Proof.
  unfold _calculate_hyperlinks_metric.
  destruct (length href_elements =? 0); [by exists (Ok (Str "No Data"))|].
  unfold mbind, M_bind, bind, lift.
  destruct (for_each href_elements href_body (0, false)) as [vars|e];
    [|by exists (Raise e)].
  destruct (truediv (fst vars) (length href_elements)) as [v|e];
    [by exists (Ok (Float v)) | by exists (Raise e)].
Qed.

Lemma label_input_count_emits (label_tags input_tags : list string) :
  exists r, forall w, label_input_count label_tags input_tags w = emit r w.
Proof.
  unfold label_input_count, mbind, M_bind, bind, lift.
  destruct (for_each input_tags (label_input_body label_tags) 0)
    as [count|e]; [|by exists (Raise e)].
  destruct (truediv count (length input_tags)) as [v|e];
    [by exists (Ok (Float v)) | by exists (Raise e)].
Qed.

Lemma unlabeled_inputs_emits (input_tags : list string) (otherwise : M unit)
    (r : result cell) :
  (forall w, otherwise w = emit r w) ->
  exists r', forall w, unlabeled_inputs input_tags otherwise w = emit r' w.
Proof.
  intros Hotherwise. induction input_tags as [|tag tags IH]; simpl.
  - by exists r.
  - destruct (attr_of (BeautifulSoup tag) "input" "hidden") as [v|e]; [done|].
    destruct e; first [by exists (Ok (Float 0)) | by eexists (Raise _)].
Qed.

Lemma label_input_metric_emits (label_tags input_tags : list string) :
  exists r,
    forall w, _calculate_label_input_metric label_tags input_tags w = emit r w.
Proof.
  unfold _calculate_label_input_metric.
  destruct (length input_tags =? 0); [by exists (Ok (Str "No Data"))|].
  destruct (label_input_count_emits label_tags input_tags) as [r Hr].
  destruct (length label_tags =? 0); [|by exists r].
  by apply (unlabeled_inputs_emits _ _ r).
Qed.

Lemma emit_returns (r : result cell) (w w' : world) :
  emit r w = Return tt w' -> exists v, w' = push v w.
Proof. destruct r as [v|e]; simpl; [intros [= <-]; by exists v | done]. Qed.

Lemma metric_value_ratio (p : string -> bool) (tags : list string) :
  tags <> [] ->
  metric_value (Float (ratio (count_where p tags) (length tags))).
Proof.
  intros Hne. apply ratio_unit_interval; [apply count_where_le|].
  by destruct tags.
Qed.

Lemma alt_metric_cell_value (img_tags : list string) :
  metric_value (alt_metric_cell img_tags).
Proof.
  destruct img_tags as [|tag tags]; [done|].
  by apply (metric_value_ratio alt_counts (tag :: tags)).
Qed.

Lemma hyperlinks_metric_cell_value (href_elements : list string) :
  metric_value (hyperlinks_metric_cell href_elements).
Proof.
  destruct href_elements as [|tag tags]; [done|].
  by apply (metric_value_ratio link_counts (tag :: tags)).
Qed.

Lemma label_input_metric_cell_value (label_tags input_tags : list string) :
  metric_value (label_input_metric_cell label_tags input_tags).
Proof.
  destruct input_tags as [|tag tags]; [done|].
  by apply (metric_value_ratio (input_counts label_tags) (tag :: tags)).
Qed.

Lemma count_where_ext {A} (p q : A -> bool) (xs : list A) :
  (forall x, p x = q x) -> count_where p xs = count_where q xs.
Proof. intros Hpq. induction xs; simpl; [done|]. by rewrite Hpq, IHxs. Qed.

(** The general count is the share of matched inputs as long as no label
    lacks its [for]. *)
Lemma label_input_metric_all_labels_named (label_tags input_tags : list string)
    (w : world) :
  input_tags <> [] ->
  Forall (has_attr "label" "for") label_tags ->
  Forall (is_element "input") input_tags ->
  _calculate_label_input_metric label_tags input_tags w
  = Return tt
      (push (Float (ratio (count_where (input_matched label_tags) input_tags)
                      (length input_tags))) w).
Proof.
  intros Hne Hfor Hinputs.
  rewrite label_input_metric_appends; [|
    eapply Forall_impl; [done|]; intros x; apply has_attr_element | done].
  unfold label_input_metric_cell.
  rewrite (count_where_ext _ (input_matched label_tags))
    by (intros x; by apply input_counts_matched).
  by destruct input_tags.
Qed.

(** * The claims *)

(** C1 (ITAA). On a list of <img> fragments the method appends "No Data" when
    the list is empty and otherwise the number of fragments that count
    divided by the number of fragments; a fragment counts exactly when its
    alt attribute exists and, lower-cased, is not "image", is not empty and
    contains none of the four boilerplate phrases; a fragment without alt is
    in the denominator and never in the numerator. *)
Theorem itaa_share_of_meaningful_alts (img_tags : list string) (w : world) :
  Forall (is_element "img") img_tags ->
  _calculate_alt_metric img_tags w
  = Return tt
      (push (match img_tags with
             | [] => Str "No Data"
             | _ :: _ =>
                 Float (ratio (count_where alt_counts img_tags)
                          (length img_tags))
             end) w)
  /\ (forall tag,
       alt_counts tag = true
       <-> exists alt,
             attr_of (BeautifulSoup tag) "img" "alt" = Ok alt
             /\ Py.lower alt <> "image"
             /\ Py.lower alt <> ""
             /\ forall phrase, In phrase boilerplate ->
                  ~ substring_of phrase (Py.lower alt))
  /\ (forall tag, lacks_attr "img" "alt" tag -> alt_counts tag = false)
  /\ (img_tags <> [] ->
      (ratio (count_where alt_counts img_tags) (length img_tags)
       == inject_Z (Z.of_nat (count_where alt_counts img_tags))
          / inject_Z (Z.of_nat (length img_tags)))%Q).
Proof.
  intros Hwf. repeat split.
  - rewrite alt_metric_appends by done. by destruct img_tags.
  - by apply alt_counts_words.
  - by apply alt_counts_words.
  - intros tag Hno. unfold alt_counts, lacks_attr in *. by rewrite Hno.
  - intros Hne. apply ratio_quotient. by destruct img_tags.
Qed.

(** C2 (HAM). On a list of <a href> fragments the method appends "No Data"
    when the list is empty and otherwise the number of accessible links
    divided by the number of links; a link is accessible exactly when some
    token of its text, split on single spaces, occurs in its href as it is
    written; a link with empty text is accessible; "Shoes" under
    /products/shoes is not, "shoes" under /shoes is. *)
Theorem ham_share_of_links_named_in_href (href_elements : list string)
    (w : world) :
  Forall (has_attr "a" "href") href_elements ->
  _calculate_hyperlinks_metric href_elements w
  = Return tt
      (push (match href_elements with
             | [] => Str "No Data"
             | _ :: _ =>
                 Float (ratio (count_where link_counts href_elements)
                          (length href_elements))
             end) w)
  /\ (forall soup,
       link_accessible soup = true
       <-> exists href token,
             attr_of soup "a" "href" = Ok href
             /\ In token (Py.split_space (soup_text soup))
             /\ substring_of token href)
  /\ (forall soup href,
       attr_of soup "a" "href" = Ok href -> soup_text soup = "" ->
       link_accessible soup = true)
  /\ link_accessible (document "a" [("href", "/products/shoes")] "Shoes")
     = false
  /\ link_accessible (document "a" [("href", "/shoes")] "shoes") = true.
Proof.
  intros Hwf. split; [|split; [|split; [|split]]].
  - rewrite hyperlinks_metric_appends by done. by destruct href_elements.
  - apply link_accessible_words.
  - apply link_accessible_empty_text.
  - by vm_compute.
  - by vm_compute.
Qed.

(** C3 (LIM without labels). With no label and at least one input: when
    [tag] is the first input without hidden, the method appends 0.0 there,
    whatever the inputs after it are and whatever the rest of the method
    would do; when every input is hidden the first loop changes nothing and
    the general count, run with no label, finds 0 matches and appends
    0 / len(input_tags) = 0.0. *)
Theorem lim_without_labels (before after hidden_inputs : list string)
    (tag : string) (otherwise : M unit) (w : world) :
  Forall (has_attr "input" "hidden") before ->
  lacks_attr "input" "hidden" tag ->
  hidden_inputs <> [] ->
  Forall (has_attr "input" "hidden") hidden_inputs ->
  (_calculate_label_input_metric [] (before ++ tag :: after) w
   = Return tt (push (Float 0) w)
   /\ unlabeled_inputs (before ++ tag :: after) otherwise w
      = Return tt (push (Float 0) w))
  /\ (unlabeled_inputs hidden_inputs otherwise = otherwise
      /\ for_each hidden_inputs (label_input_body []) 0 = Ok 0
      /\ _calculate_label_input_metric [] hidden_inputs w
         = Return tt (push (Float (ratio 0 (length hidden_inputs))) w)
      /\ ratio 0 (length hidden_inputs) = 0%Q).
Proof.
  intros Hbefore Htag Hne Hhidden.
  assert (Forall (is_element "input") hidden_inputs) as Hinputs.
  { eapply Forall_impl; [done|]. intros x. apply has_attr_element. }
  repeat split.
  - unfold _calculate_label_input_metric.
    destruct (Nat.eqb_spec (length (before ++ tag :: after)) 0) as [Hlen|_].
    { rewrite length_app in Hlen. simpl in Hlen. lia. }
    by apply unlabeled_inputs_short_circuit.
  - by apply unlabeled_inputs_short_circuit.
  - by apply unlabeled_inputs_all_hidden.
  - rewrite label_input_loop_counts by done.
    by rewrite count_where_none by apply input_counts_no_labels.
  - rewrite label_input_metric_appends by done.
    by rewrite label_input_metric_cell_no_labels.
Qed.

(** C5 (range). On a record that satisfies the data-model invariant the
    three methods append three values, each of them "No Data" or a number
    between 0 and 1. *)
Theorem metric_values_in_range (data : FragmentRecord) (w : world) :
  well_formed data ->
  exists itaa ham lim,
    evaluate data w = Return tt (push lim (push ham (push itaa w)))
    /\ metric_value itaa /\ metric_value ham /\ metric_value lim.
Proof.
  intros Hwf.
  exists (alt_metric_cell (alt_tags data)),
    (hyperlinks_metric_cell (href_tags data)),
    (label_input_metric_cell (label_tags data) (input_tags data)).
  split; [by apply evaluate_appends|].
  split; [apply alt_metric_cell_value|].
  split; [apply hyperlinks_metric_cell_value|].
  apply label_input_metric_cell_value.
Qed.

(** C6, as amended. Nothing in the aggregator catches an exception of a
    metric computation. While the records satisfy the data-model invariant
    none is raised and every record gets its row; at the first record one of
    whose links has no href, the HAM computation raises KeyError at that
    link, the links after it are not read, no row is written for the record
    or for any later one, and the run ends with that exception, the rows of
    the earlier records being in the table. *)
Theorem run_stops_at_link_without_href
    (done_files rest : list FragmentRecord) (data : FragmentRecord)
    (before after : list string) (tag : string) (csv : list (list cell)) :
  Forall well_formed done_files ->
  Forall (is_element "img") (alt_tags data) ->
  href_tags data = before ++ tag :: after ->
  Forall (has_attr "a" "href") before ->
  lacks_attr "a" "href" tag ->
  __init__ done_files csv
  = Return tt {| row_data := [];
                 results_csv := csv ++ map result_row done_files |}
  /\ __init__ (done_files ++ data :: rest) csv
     = Raised KeyError
         {| row_data := [Str (name data); alt_metric_cell (alt_tags data)];
            results_csv := csv ++ map result_row done_files |}.
Proof.
  intros Hdone Himg Hhref Hbefore Htag. unfold __init__.
  split; [by rewrite calculate_metrics_writes|].
  rewrite calculate_metrics_app. unfold bind at 1.
  rewrite calculate_metrics_writes by done.
  cbn [calculate_metrics]. unfold mbind, M_bind, bind.
  by rewrite (calculate_metrics_body_raises _ before after tag KeyError).
Qed.

(** C7, as amended. On fragments that hold their elements, ITAA and LIM
    return whichever of alt, id, for and hidden are missing; an <img>
    without alt and an <input> without id do not count and leave the count
    of the fragments around them as it would be without them; for hidden it
    is the presence, not the absence, that keeps an input from counting, and
    a hidden input too leaves the count of the others as it is; a link
    without href makes HAM raise KeyError. *)
Theorem absent_attributes
    (imgs_before imgs_after inputs_before inputs_after label_tags
       links_before links_after : list string)
    (img input hidden_input link : string) (count : nat) (w : world) :
  Forall (is_element "img") (imgs_before ++ imgs_after) ->
  lacks_attr "img" "alt" img ->
  Forall (is_element "label") label_tags ->
  Forall (is_element "input") (inputs_before ++ inputs_after) ->
  lacks_attr "input" "id" input ->
  has_attr "input" "hidden" hidden_input ->
  Forall (has_attr "a" "href") links_before ->
  lacks_attr "a" "href" link ->
  (for_each (imgs_before ++ img :: imgs_after) alt_body count
   = for_each (imgs_before ++ imgs_after) alt_body count
   /\ exists itaa,
        _calculate_alt_metric (imgs_before ++ img :: imgs_after) w
        = Return tt (push itaa w))
  /\ (for_each (inputs_before ++ input :: inputs_after)
        (label_input_body label_tags) count
      = for_each (inputs_before ++ inputs_after)
          (label_input_body label_tags) count
      /\ for_each (inputs_before ++ hidden_input :: inputs_after)
           (label_input_body label_tags) count
         = for_each (inputs_before ++ inputs_after)
             (label_input_body label_tags) count
      /\ exists lim,
           _calculate_label_input_metric label_tags
             (inputs_before ++ input :: inputs_after) w
           = Return tt (push lim w))
  /\ _calculate_hyperlinks_metric (links_before ++ link :: links_after) w
     = Raised KeyError w.
Proof.
  intros Himgs Himg Hlabels Hinputs Hinput Hhidden Hlinks Hlink.
  assert (forall x, is_element "img" x ->
            Forall (is_element "img") (imgs_before ++ x :: imgs_after))
    as Himgs'.
  { intros x Hx. apply Forall_app in Himgs as [? ?].
    apply Forall_app. split; [done|]. by constructor. }
  assert (forall x, is_element "input" x ->
            Forall (is_element "input") (inputs_before ++ x :: inputs_after))
    as Hinputs'.
  { intros x Hx. apply Forall_app in Hinputs as [? ?].
    apply Forall_app. split; [done|]. by constructor. }
  assert (alt_counts img = false) as Hc1.
  { unfold alt_counts, lacks_attr in *. by rewrite Himg. }
  assert (input_counts label_tags input = false) as Hc2.
  { unfold input_counts, lacks_attr in *. by rewrite Hinput. }
  assert (input_counts label_tags hidden_input = false) as Hc3.
  { unfold input_counts. destruct Hhidden as [v ->].
    by destruct (attr_of _ "input" "id"). }
  apply lacks_attr_element in Himg, Hinput.
  apply has_attr_element in Hhidden.
  split; [|split].
  - split; [|eexists; apply alt_metric_appends; by apply Himgs'].
    rewrite !alt_loop_counts by auto.
    rewrite !count_where_app. simpl. by rewrite Hc1.
  - split; [|split].
    + rewrite !label_input_loop_counts by auto.
      rewrite !count_where_app. simpl. by rewrite Hc2.
    + rewrite !label_input_loop_counts by auto.
      rewrite !count_where_app. simpl. by rewrite Hc3.
    + eexists. apply label_input_metric_appends; auto.
  - by apply hyperlinks_metric_raises.
Qed.


(** C9 (idempotence). Each of the three metric methods appends a value, or
    raises an exception, that is fixed by its tag lists and is the same from
    every state of the calculator; so the evaluation of a record, run a
    second time on the same lists, appends the same three values again. *)
Theorem evaluator_has_no_hidden_state (data : FragmentRecord) :
  exists itaa ham lim : result cell,
    (forall w, _calculate_alt_metric (alt_tags data) w = emit itaa w)
    /\ (forall w,
         _calculate_hyperlinks_metric (href_tags data) w = emit ham w)
    /\ (forall w,
         _calculate_label_input_metric (label_tags data) (input_tags data) w
         = emit lim w)
    /\ (forall w,
         evaluate data w
         = bind (emit itaa) (fun _ => bind (emit ham) (fun _ => emit lim)) w)
    /\ (forall w w1 w2,
         evaluate data w = Return tt w1 ->
         evaluate data w1 = Return tt w2 ->
         exists v1 v2 v3,
           w1 = push v3 (push v2 (push v1 w))
           /\ w2 = push v3 (push v2 (push v1 w1))).
Proof.
  destruct (alt_metric_emits (alt_tags data)) as [r1 H1].
  destruct (hyperlinks_metric_emits (href_tags data)) as [r2 H2].
  destruct (label_input_metric_emits (label_tags data) (input_tags data))
    as [r3 H3].
  assert (forall w,
            evaluate data w
            = bind (emit r1) (fun _ => bind (emit r2) (fun _ => emit r3)) w)
    as Heval.
  { intros w. unfold evaluate, mbind, M_bind, bind.
    rewrite H1. destruct (emit r1 w) as [[] w1|]; [|done].
    rewrite H2. destruct (emit r2 w1) as [[] w2|]; [|done].
    by rewrite H3. }
  exists r1, r2, r3. do 4 (split; [done|]).
  intros w w1 w2. rewrite !Heval.
  destruct r1 as [v1|e]; [|done].
  destruct r2 as [v2|e]; [|done].
  destruct r3 as [v3|e]; [|done].
  cbn [bind emit]. intros [= <-] [= <-]. by exists v1, v2, v3.
Qed.

(** C10 (row width). A record that satisfies the data-model invariant,
    processed from an empty buffer, writes a row of exactly five values: its
    name, one value per metric and one percentage string. Whatever the tag
    lists are, a metric method that returns has appended exactly one value;
    and the lookup never raises: it appends exactly one string, which is
    "-1%" when the browser cannot load the page or no read of the page shows
    the percentage. *)
Theorem row_has_five_values (data : FragmentRecord) (w : world) :
  well_formed data ->
  row_data w = [] ->
  (exists itaa ham lim percent,
     calculate_metrics_body data w
     = Return tt
         {| row_data := [];
            results_csv :=
              results_csv w ++ [[Str (name data); itaa; ham; lim; Str percent]]
         |})
  /\ (forall img_tags w0 w1,
       _calculate_alt_metric img_tags w0 = Return tt w1 ->
       exists v, w1 = push v w0)
  /\ (forall href_elements w0 w1,
       _calculate_hyperlinks_metric href_elements w0 = Return tt w1 ->
       exists v, w1 = push v w0)
  /\ (forall label_tags input_tags w0 w1,
       _calculate_label_input_metric label_tags input_tags w0 = Return tt w1 ->
       exists v, w1 = push v w0)
  /\ (forall target_url w0,
       _get_accessibility_percent target_url w0
       = Return tt (push (Str (accessibility_percent target_url)) w0))
  /\ (forall target_url e,
       load_page (Chrome (BASE_URL +:+ target_url +:+ "/")) = Raise e ->
       accessibility_percent target_url = "-1%")
  /\ (forall target_url,
       page_source (Chrome (BASE_URL +:+ target_url +:+ "/")) 0 = Ok None ->
       page_source (Chrome (BASE_URL +:+ target_url +:+ "/")) 1 = Ok None ->
       accessibility_percent target_url = "-1%").
Proof.
  intros Hwf Hrow. split; [|split; [|split; [|split; [|split; [|split]]]]].
  - rewrite calculate_metrics_body_writes, Hrow by done.
    unfold result_row. simpl. eauto 10.
  - intros tags w0 w1. destruct (alt_metric_emits tags) as [r ->].
    apply emit_returns.
  - intros tags w0 w1. destruct (hyperlinks_metric_emits tags) as [r ->].
    apply emit_returns.
  - intros labels inputs w0 w1.
    destruct (label_input_metric_emits labels inputs) as [r ->].
    apply emit_returns.
  - apply get_accessibility_percent_appends.
  - intros url e He. unfold accessibility_percent. by rewrite He.
  - intros url H0 H1. unfold accessibility_percent. rewrite H0, H1.
    by destruct (load_page _).
Qed.

(** * Further properties of the calculator *)

(** ** Fragments without their element *)

Lemma alt_body_raises (tag : string) (count_alt : nat) :
  find_all (BeautifulSoup tag) "img" = [] ->
  alt_body tag count_alt = Raise IndexError.
Proof. intros Hnone. unfold alt_body, attr_of. by rewrite Hnone. Qed.

Lemma label_input_body_raises (label_tags : list string) (curr_input : string)
    (count_label_input : nat) :
  find_all (BeautifulSoup curr_input) "input" = [] ->
  label_input_body label_tags curr_input count_label_input = Raise IndexError.
Proof. intros Hnone. unfold label_input_body, attr_of. by rewrite Hnone. Qed.

(** X1. A stored fragment that holds no element of its tag is not skipped: the
    [IndexError] of [soup(name)[0]] leaves ITAA, and leaves LIM when there
    are labels, with nothing appended. *)
Theorem fragment_without_element_raises
    (imgs_before imgs_after inputs_before inputs_after label_tags
       : list string) (img input : string) (w : world) :
  Forall (is_element "img") imgs_before ->
  find_all (BeautifulSoup img) "img" = [] ->
  label_tags <> [] ->
  Forall (is_element "label") label_tags ->
  Forall (is_element "input") inputs_before ->
  find_all (BeautifulSoup input) "input" = [] ->
  _calculate_alt_metric (imgs_before ++ img :: imgs_after) w
  = Raised IndexError w
  /\ _calculate_label_input_metric label_tags
       (inputs_before ++ input :: inputs_after) w
     = Raised IndexError w.
Proof.
  intros Himgs Himg Hne Hlabels Hinputs Hinput. split.
  - unfold _calculate_alt_metric.
    destruct (Nat.eqb_spec (length (imgs_before ++ img :: imgs_after)) 0)
      as [Hlen|_].
    { rewrite length_app in Hlen. simpl in Hlen. lia. }
    unfold mbind, M_bind, bind, lift.
    rewrite for_each_app, alt_loop_counts by done. simpl.
    by rewrite alt_body_raises.
  - unfold _calculate_label_input_metric.
    destruct (Nat.eqb_spec (length (inputs_before ++ input :: inputs_after)) 0)
      as [Hlen|_].
    { rewrite length_app in Hlen. simpl in Hlen. lia. }
    destruct (Nat.eqb_spec (length label_tags) 0) as [Hlen|_].
    { by destruct label_tags. }
    unfold label_input_count, mbind, M_bind, bind, lift.
    rewrite for_each_app, label_input_loop_counts by done. simpl.
    by rewrite label_input_body_raises.
Qed.

(** ** The order of the fragments *)

Lemma count_where_Permutation {A} (p : A -> bool) (xs ys : list A) :
  Permutation xs ys -> count_where p xs = count_where p ys.
Proof.
  induction 1 as [|x xs ys _ IH|x y xs|xs ys zs _ IH1 _ IH2]; simpl.
  - done.
  - by rewrite IH.
  - lia.
  - by rewrite IH1.
Qed.

Lemma ratio_cell_Permutation (p : string -> bool) (xs ys : list string) :
  Permutation xs ys ->
  match xs with
  | [] => Str "No Data"
  | _ => Float (ratio (count_where p xs) (length xs))
  end
  = match ys with
    | [] => Str "No Data"
    | _ => Float (ratio (count_where p ys) (length ys))
    end.
Proof.
  intros Hperm.
  rewrite (count_where_Permutation p xs ys), (Permutation_length Hperm)
    by done.
  destruct xs as [|x xs], ys as [|y ys]; try done.
  - by apply Permutation_nil_cons in Hperm.
  - symmetry in Hperm. by apply Permutation_nil_cons in Hperm.
Qed.

(** X2. On well-formed fragments each metric is a share of a multiset: listing
    the images, the links or the inputs of a site in another order gives the
    same ITAA, HAM and LIM. *)
Theorem metrics_ignore_fragment_order
    (img_tags img_tags' href_elements href_elements' label_tags input_tags
       input_tags' : list string) (w : world) :
  Permutation img_tags img_tags' ->
  Permutation href_elements href_elements' ->
  Permutation input_tags input_tags' ->
  Forall (is_element "img") img_tags ->
  Forall (has_attr "a" "href") href_elements ->
  Forall (is_element "label") label_tags ->
  Forall (is_element "input") input_tags ->
  _calculate_alt_metric img_tags' w = _calculate_alt_metric img_tags w
  /\ _calculate_hyperlinks_metric href_elements' w
     = _calculate_hyperlinks_metric href_elements w
  /\ _calculate_label_input_metric label_tags input_tags' w
     = _calculate_label_input_metric label_tags input_tags w.
Proof.
  intros Pimg Phref Pinput Himg Hhref Hlabel Hinput.
  assert (Forall (is_element "img") img_tags') by by rewrite <- Pimg.
  assert (Forall (has_attr "a" "href") href_elements') by by rewrite <- Phref.
  assert (Forall (is_element "input") input_tags') by by rewrite <- Pinput.
  rewrite !alt_metric_appends, !hyperlinks_metric_appends,
    !label_input_metric_appends by done.
  unfold alt_metric_cell, hyperlinks_metric_cell, label_input_metric_cell.
  rewrite (ratio_cell_Permutation alt_counts img_tags img_tags') by done.
  rewrite (ratio_cell_Permutation link_counts href_elements href_elements')
    by done.
  by rewrite (ratio_cell_Permutation (input_counts label_tags)
                input_tags input_tags') by done.
Qed.

(** ** The two ends of the scale *)

Lemma ratio_one_iff (a b : nat) : b <> 0 -> ratio a b = 1%Q <-> a = b.
Proof.
  intros Hb. split; [|intros ->; by apply ratio_full].
  unfold ratio. intros Hone.
  pose proof (Qred_correct (Z.of_nat a # Pos.of_nat b)) as Hred.
  rewrite Hone in Hred. unfold Qeq in Hred. simpl in Hred.
  rewrite pos_of_nat_Z in Hred by done. lia.
Qed.

Lemma ratio_zero_iff (a b : nat) : ratio a b = 0%Q <-> a = 0.
Proof.
  split; [|intros ->; apply ratio_zero].
  unfold ratio. intros Hzero.
  pose proof (Qred_correct (Z.of_nat a # Pos.of_nat b)) as Hred.
  rewrite Hzero in Hred. unfold Qeq in Hred. simpl in Hred. lia.
Qed.

Lemma count_where_all {A} (p : A -> bool) (xs : list A) :
  count_where p xs = length xs <-> Forall (fun x => p x = true) xs.
Proof.
  induction xs as [|x xs IH]; simpl.
  - split; [by constructor | done].
  - pose proof (count_where_le p xs). rewrite Forall_cons, <- IH.
    destruct (p x); split; try lia; by intros [? ?]; try lia.
Qed.

Lemma count_where_zero {A} (p : A -> bool) (xs : list A) :
  count_where p xs = 0 <-> Forall (fun x => p x = false) xs.
Proof.
  induction xs as [|x xs IH]; simpl.
  - split; [by constructor | done].
  - rewrite Forall_cons, <- IH.
    destruct (p x); split; try lia; by intros [? ?]; try lia.
Qed.

Lemma push_inj (v v' : cell) (w : world) :
  Return tt (push v w) = Return tt (push v' w) -> v = v'.
Proof.
  intros [= Heq]. by apply app_inj_tail in Heq as [_ [= ->]].
Qed.

Lemma share_is_one (p : string -> bool) (tags : list string) :
  tags <> [] ->
  Float (ratio (count_where p tags) (length tags)) = Float 1
  <-> Forall (fun tag => p tag = true) tags.
Proof.
  intros Hne. rewrite <- count_where_all, <- (ratio_one_iff _ (length tags)).
  - split; [by intros [= ->] | by intros ->].
  - by destruct tags.
Qed.

Lemma share_is_zero (p : string -> bool) (tags : list string) :
  Float (ratio (count_where p tags) (length tags)) = Float 0
  <-> Forall (fun tag => p tag = false) tags.
Proof.
  rewrite <- count_where_zero, <- (ratio_zero_iff _ (length tags)).
  split; [by intros [= ->] | by intros ->].
Qed.

(** X3. On a non-empty list of well-formed fragments ITAA is 1.0 exactly when
    every image has a meaningful alt and 0.0 exactly when none has, and HAM
    is 1.0 exactly when every link is accessible and 0.0 exactly when none
    is. *)
Theorem itaa_ham_extremes (img_tags href_elements : list string) (w : world) :
  img_tags <> [] ->
  href_elements <> [] ->
  Forall (is_element "img") img_tags ->
  Forall (has_attr "a" "href") href_elements ->
  (_calculate_alt_metric img_tags w = Return tt (push (Float 1) w)
   <-> Forall (fun tag => alt_counts tag = true) img_tags)
  /\ (_calculate_alt_metric img_tags w = Return tt (push (Float 0) w)
      <-> Forall (fun tag => alt_counts tag = false) img_tags)
  /\ (_calculate_hyperlinks_metric href_elements w
      = Return tt (push (Float 1) w)
      <-> Forall (fun tag => link_counts tag = true) href_elements)
  /\ (_calculate_hyperlinks_metric href_elements w
      = Return tt (push (Float 0) w)
      <-> Forall (fun tag => link_counts tag = false) href_elements).
Proof.
  intros Hne1 Hne2 Himg Hhref.
  rewrite alt_metric_appends, hyperlinks_metric_appends by done.
  unfold alt_metric_cell, hyperlinks_metric_cell.
  destruct img_tags as [|img imgs]; [done|].
  destruct href_elements as [|link links]; [done|].
  rewrite <- (share_is_one alt_counts (img :: imgs)) by done.
  rewrite <- (share_is_zero alt_counts (img :: imgs)).
  rewrite <- (share_is_one link_counts (link :: links)) by done.
  rewrite <- (share_is_zero link_counts (link :: links)).
  repeat split; first [apply push_inj | by intros ->].
Qed.

(** ** The test on alt texts *)

Lemma append_assoc (a b c : string) : (a +:+ b) +:+ c = a +:+ b +:+ c.
Proof.
  induction a as [|x a IH]; [done|].
  by rewrite !append_cons, IH.
Qed.

Lemma substring_of_trans (a b c : string) :
  substring_of a b -> substring_of b c -> substring_of a c.
Proof.
  intros (b1 & b2 & ->) (c1 & c2 & ->).
  exists (c1 +:+ b1), (b2 +:+ c2). by rewrite !append_assoc.
Qed.

Lemma contains_trans (a b c : string) :
  Py.contains a b = true -> Py.contains b c = true -> Py.contains a c = true.
Proof. rewrite !contains_substring. apply substring_of_trans. Qed.

Lemma lower_char_lower_char (c : ascii) :
  Py.lower_char (Py.lower_char c) = Py.lower_char c.
Proof.
  destruct c as [b0 b1 b2 b3 b4 b5 b6 b7].
  destruct b0, b1, b2, b3, b4, b5, b6, b7; reflexivity.
Qed.

Lemma lower_lower (s : string) : Py.lower (Py.lower s) = Py.lower s.
Proof.
  induction s as [|c s IH]; cbn [Py.lower]; [done|].
  by rewrite IH, lower_char_lower_char.
Qed.

(** X4. The verdict on an alt text is taken on its lower-cased form: two texts
    that differ only in the case of their letters are both meaningful or
    both not, and lower-casing a text does not change its verdict. *)
Theorem alt_verdict_ignores_case (alt alt' : string) :
  Py.lower alt = Py.lower alt' ->
  meaningful_alt alt = meaningful_alt alt'
  /\ meaningful_alt (Py.lower alt) = meaningful_alt alt.
Proof.
  intros Hlower.
  rewrite !meaningful_alt_words, lower_lower. by rewrite Hlower.
Qed.

(** X5. The fourth phrase of the test never decides: a text that contains "this
    is an image of" contains "image of", so the test is the one with the
    three phrases "graphic of", "image of" and "picture of". *)
Theorem fourth_phrase_is_redundant (alt_text : string) :
  meaningful_alt alt_text
  = negb (String.eqb (Py.lower alt_text) "image")
    && negb (String.eqb alt_text "")
    && negb (Py.contains "graphic of" (Py.lower alt_text))
    && negb (Py.contains "image of" (Py.lower alt_text))
    && negb (Py.contains "picture of" (Py.lower alt_text)).
Proof.
  unfold meaningful_alt.
  destruct (Py.contains "this is an image of" (Py.lower alt_text)) eqn:Hlong;
    [|by rewrite andb_true_r].
  rewrite (contains_trans "image of" "this is an image of") by done.
  simpl. by rewrite !andb_false_r.
Qed.

(** ** Empty tokens in HAM *)

Lemma split_space_append (r t : string) :
  Py.split_space (r +:+ String " " t)
  = Py.split_space r ++ Py.split_space t.
Proof.
  induction r as [|c r IH]; [done|].
  rewrite append_cons. cbn [Py.split_space].
  destruct (Ascii.eqb c " "); [by rewrite IH|].
  rewrite IH. pose proof (split_space_not_nil r).
  by destruct (Py.split_space r).
Qed.

Lemma split_space_head (s : string) :
  head (Py.split_space s) = Some "" -> s = "" \/ exists r, s = String " " r.
Proof.
  destruct s as [|c s]; [by left|]. cbn [Py.split_space].
  destruct (Ascii.eqb c " ") eqn:Hc.
  - apply Ascii.eqb_eq in Hc as ->. right. by exists s.
  - pose proof (split_space_not_nil s). by destruct (Py.split_space s).
Qed.

Lemma split_space_tail (s : string) :
  In "" (tail (Py.split_space s)) ->
  (exists r, s = r +:+ " ") \/ substring_of "  " s.
Proof.
  induction s as [|c s IH]; [done|]. cbn [Py.split_space].
  destruct (Ascii.eqb c " ") eqn:Hc.
  - apply Ascii.eqb_eq in Hc as ->. cbn [tail]. intros Hin.
    pose proof (split_space_not_nil s) as Hne.
    destruct (Py.split_space s) as [|tok toks] eqn:Hsplit; [done|].
    destruct Hin as [->|Hin].
    + destruct (split_space_head s) as [->|[r ->]]; [by rewrite Hsplit|..].
      * left. by exists "".
      * right. by exists "", r.
    + destruct IH as [[r ->]|(a & b & ->)]; [done|..].
      * left. by exists (String " " r).
      * right. by exists (String " " a), b.
  - pose proof (split_space_not_nil s) as Hne.
    destruct (Py.split_space s) as [|tok toks]; [done|]. cbn [tail] in *.
    intros Hin. destruct (IH Hin) as [[r ->]|(a & b & ->)].
    + left. by exists (String c r).
    + right. by exists (String c a), b.
Qed.

(** [text.split(" ")] holds an empty token exactly when the text is empty,
    begins or ends with a space, or holds two spaces in a row. *)
Lemma empty_token_iff (s : string) :
  In "" (Py.split_space s)
  <-> s = "" \/ (exists r, s = String " " r) \/ (exists r, s = r +:+ " ")
      \/ substring_of "  " s.
Proof.
  split.
  - intros Hin. pose proof (split_space_not_nil s) as Hne.
    destruct (Py.split_space s) as [|tok toks] eqn:Hsplit; [done|].
    destruct Hin as [->|Hin].
    + destruct (split_space_head s) as [->|?]; [by rewrite Hsplit|auto..].
    + destruct (split_space_tail s) as [?|?]; [by rewrite Hsplit|auto..].
  - intros [->|[[r ->]|[[r ->]|(a & b & ->)]]].
    + by left.
    + by left.
    + rewrite split_space_append. apply in_or_app. right. by left.
    + change (a +:+ "  " +:+ b) with (a +:+ String " " (String " " b)).
      rewrite split_space_append. apply in_or_app. right. by left.
Qed.

(** X6. A link whose text is empty, begins or ends with a space or holds two
    spaces in a row is accessible whatever its href is, and any other link is
    accessible only through one of its non-empty tokens. *)
Theorem ham_empty_token (soup : Soup) (href : string) :
  attr_of soup "a" "href" = Ok href ->
  (soup_text soup = ""
   \/ (exists r, soup_text soup = String " " r)
   \/ (exists r, soup_text soup = r +:+ " ")
   \/ substring_of "  " (soup_text soup) ->
   link_accessible soup = true)
  /\ (link_accessible soup = true ->
      soup_text soup = ""
      \/ (exists r, soup_text soup = String " " r)
      \/ (exists r, soup_text soup = r +:+ " ")
      \/ substring_of "  " (soup_text soup)
      \/ exists token,
           token <> "" /\ In token (Py.split_space (soup_text soup))
           /\ substring_of token href).
Proof.
  intros Hhref. split.
  - intros Hshape. apply link_accessible_words. exists href, "".
    split; [done|]. split; [by apply empty_token_iff|]. by exists "", href.
  - intros (href' & token & Hhref' & Hin & Hsub)%link_accessible_words.
    assert (href' = href) as -> by congruence.
    destruct (decide (token = "")) as [->|Hne].
    + apply empty_token_iff in Hin.
      destruct Hin as [?|[?|[?|?]]]; auto.
    + do 4 right. by exists token.
Qed.

(** ** What LIM counts *)

Lemma labels_reach_iff (input_id : string) (label_tags : list string) :
  labels_reach input_id label_tags = true
  <-> exists before label after for_,
        label_tags = before ++ label :: after
        /\ Forall (has_attr "label" "for") before
        /\ attr_of (BeautifulSoup label) "label" "for" = Ok for_
        /\ substring_of input_id for_.
Proof.
  induction label_tags as [|curr_label labels IH]; simpl.
  - split; [done | intros (before & ? & ? & ? & Heq & _)].
    by destruct before.
  - destruct (attr_of (BeautifulSoup curr_label) "label" "for")
      as [for_|e] eqn:Hfor.
    + rewrite orb_true_iff, IH, contains_substring. split.
      * intros [Hsub|(before & label & after & f & -> & Hbefore & Hf & Hsub)].
        -- by exists [], curr_label, labels, for_.
        -- exists (curr_label :: before), label, after, f.
           repeat split; try done. constructor; [by exists for_ | done].
      * intros (before & label & after & f & Heq & Hbefore & Hf & Hsub).
        destruct before as [|first before]; simplify_eq/=.
        -- left. by rewrite Hfor in Hf; simplify_eq.
        -- right. exists before, label, after, f.
           by apply Forall_cons in Hbefore as [_ ?].
    + split; [done | intros (before & label & after & f & Heq & Hb & Hf & _)].
      destruct before as [|first before]; simplify_eq/=.
      * by rewrite Hfor in Hf.
      * apply Forall_cons in Hb as [[v Hv] _]. by rewrite Hfor in Hv.
Qed.

(** X7. On fragments that hold their elements, the body of the LIM loop adds one
    for an input exactly when the input has an id, has no hidden, and its id
    occurs in the [for] of a label before which every label carries a [for];
    otherwise it leaves the count as it is. *)
Theorem lim_counts_an_input_iff (label_tags : list string)
    (curr_input : string) (count : nat) :
  Forall (is_element "label") label_tags ->
  is_element "input" curr_input ->
  (label_input_body label_tags curr_input count = Ok (count + 1)
   \/ label_input_body label_tags curr_input count = Ok count)
  /\ (label_input_body label_tags curr_input count = Ok (count + 1)
      <-> exists input_id before label after for_,
            attr_of (BeautifulSoup curr_input) "input" "id" = Ok input_id
            /\ lacks_attr "input" "hidden" curr_input
            /\ label_tags = before ++ label :: after
            /\ Forall (has_attr "label" "for") before
            /\ attr_of (BeautifulSoup label) "label" "for" = Ok for_
            /\ substring_of input_id for_).
Proof.
  intros Hlabels Hinput. rewrite label_input_body_counts by done.
  split.
  { destruct (input_counts label_tags curr_input); [by left|right].
    f_equal; lia. }
  assert (Ok (count + (if input_counts label_tags curr_input then 1 else 0))
          = Ok (count + 1)
          <-> input_counts label_tags curr_input = true) as ->.
  { destruct (input_counts label_tags curr_input); split; try done.
    intros [= ?]. lia. }
  unfold input_counts, lacks_attr.
  destruct (attr_of (BeautifulSoup curr_input) "input" "id") as [input_id|e].
  - destruct (attr_of (BeautifulSoup curr_input) "input" "hidden")
      as [v|[]]; try (split; [done | by intros (?&?&?&?&?&?&?&_)]).
    rewrite labels_reach_iff. split.
    + intros (before & label & after & f & ?). by exists input_id, before, label, after, f.
    + intros (input_id' & before & label & after & f & [= <-] & _ & ?).
      by exists before, label, after, f.
  - split; [done | by intros (?&?&?&?&?&?&_)].
Qed.

(** X8. An input whose id is the empty string and that is not hidden is counted
    as soon as the first label carries a [for], whatever that [for] names:
    the empty string occurs in every string. *)
Theorem lim_counts_empty_id (first_label : string) (more_labels : list string)
    (curr_input : string) (count : nat) :
  Forall (is_element "label") (first_label :: more_labels) ->
  has_attr "label" "for" first_label ->
  attr_of (BeautifulSoup curr_input) "input" "id" = Ok "" ->
  lacks_attr "input" "hidden" curr_input ->
  label_input_body (first_label :: more_labels) curr_input count
  = Ok (count + 1).
Proof.
  intros Hlabels [for_ Hfor] Hid Hvisible.
  rewrite label_input_body_counts;
    [|done|by eapply lacks_attr_element].
  unfold input_counts, lacks_attr in *. rewrite Hid, Hvisible. simpl.
  by rewrite Hfor, contains_empty.
Qed.

(** ** The lookup *)

(** X9. The page is read a second time only when the first read shows no
    percentage element: a percentage on the first read is appended as it is,
    one found on the second read is appended when the first had none, and a
    read that raises, first or second, gives "-1%" without another try. *)
Theorem lookup_reads_the_page_at_most_twice (target_url percent : string)
    (e : exn) (w : world) :
  let browser := Chrome (BASE_URL +:+ target_url +:+ "/") in
  load_page browser = Ok tt ->
  (page_source browser 0 = Ok (Some percent) ->
   _get_accessibility_percent target_url w
   = Return tt (push (Str percent) w))
  /\ (page_source browser 0 = Ok None ->
      page_source browser 1 = Ok (Some percent) ->
      _get_accessibility_percent target_url w
      = Return tt (push (Str percent) w))
  /\ (page_source browser 0 = Raise e ->
      _get_accessibility_percent target_url w
      = Return tt (push (Str "-1%") w))
  /\ (page_source browser 0 = Ok None ->
      page_source browser 1 = Raise e ->
      _get_accessibility_percent target_url w
      = Return tt (push (Str "-1%") w)).
Proof.
  intros browser Hload. rewrite get_accessibility_percent_appends.
  unfold accessibility_percent. fold browser. rewrite Hload.
  repeat split.
  - by intros ->.
  - by intros -> ->.
  - by intros ->.
  - by intros -> ->.
Qed.

(** ** The table *)

Lemma calculate_metrics_body_outcome (data : FragmentRecord) (w : world) :
  match calculate_metrics_body data w with
  | Return _ w' =>
      row_data w' = []
      /\ exists itaa ham lim percent,
           results_csv w'
           = results_csv w
             ++ [row_data w
                 ++ [Str (name data); itaa; ham; lim; Str percent]]
  | Raised _ w' => results_csv w' = results_csv w
  end.
Proof.
  destruct (alt_metric_emits (alt_tags data)) as [r1 H1].
  destruct (hyperlinks_metric_emits (href_tags data)) as [r2 H2].
  destruct (label_input_metric_emits (label_tags data) (input_tags data))
    as [r3 H3].
  unfold calculate_metrics_body, mbind, M_bind, bind.
  cbn [row_data_append].
  rewrite H1. destruct r1 as [itaa|e]; [|done]. cbn [emit].
  rewrite H2. destruct r2 as [ham|e]; [|done]. cbn [emit].
  rewrite H3. destruct r3 as [lim|e]; [|done]. cbn [emit].
  rewrite get_accessibility_percent_appends.
  unfold writerow, clear_row_data, push. simpl. split; [done|].
  exists itaa, ham, lim, (accessibility_percent (name data)).
  by rewrite <- !app_assoc.
Qed.

(** X10. Whatever the stored records are, the run only appends to results.csv:
    the rows that were there stay where they are, a run that returns has
    added one row per file and a run that raises has added one row for each
    of the files it had finished, fewer than there are files. *)
Theorem results_table_is_append_only (listdir : list FragmentRecord)
    (w : world) :
  match calculate_metrics listdir w with
  | Return _ w' =>
      exists rows,
        results_csv w' = results_csv w ++ rows
        /\ length rows = length listdir
  | Raised _ w' =>
      exists rows,
        results_csv w' = results_csv w ++ rows
        /\ length rows < length listdir
  end.
Proof.
  revert w; induction listdir as [|data rest IH]; intros w; simpl.
  - exists []. by rewrite app_nil_r.
  - unfold mbind, M_bind, bind.
    pose proof (calculate_metrics_body_outcome data w) as Hbody.
    destruct (calculate_metrics_body data w) as [[] w1|e w1].
    + destruct Hbody as (_ & itaa & ham & lim & percent & Hcsv).
      specialize (IH w1).
      destruct (calculate_metrics rest w1) as [[] w2|e w2];
        destruct IH as (rows & -> & Hlen); rewrite Hcsv, <- app_assoc;
        eexists; (split; [done|]); simpl; lia.
    + exists []. rewrite app_nil_r. split; [done|]. simpl. lia.
Qed.



(** * The shards of startup.py *)

Lemma modulo_multiple (g d : nat) : d <> 0 -> modulo (g * d) d = Ok 0.
Proof.
  intros Hd. unfold modulo. destruct (Nat.eqb_spec d 0); [done|].
  by rewrite Nat.Div0.mod_mul.
Qed.

Lemma modulo_between (j g d : nat) :
  j < g * d -> g * d < j + d ->
  exists r, modulo j d = Ok r /\ r <> 0.
Proof.
  intros Hlow Hhigh. unfold modulo.
  destruct (Nat.eqb_spec d 0) as [->|Hd]; [lia|].
  exists (j mod d). split; [done|]. intros Hmod.
  apply Nat.Div0.div_exact in Hmod.
  generalize dependent (j / d). intros q ->.
  destruct (Nat.le_gt_cases g q); nia.
Qed.

Lemma modulo_small (j d : nat) :
  0 < j -> j < d -> exists r, modulo j d = Ok r /\ r <> 0.
Proof.
  intros Hpos Hlt. unfold modulo.
  destruct (Nat.eqb_spec d 0) as [->|Hd]; [lia|].
  exists j. by rewrite Nat.mod_small; [split; [|lia]|].
Qed.

(** Past the last multiple of [div_j] nothing is written. *)
Lemma shard_loop_idle (csv_file : list string) (d n m j : nat)
    (files : gmap nat (list string)) (filename : nat) :
  0 < j -> j + m <= d ->
  shard_loop csv_file d n (seq j m) files filename = Ok files.
Proof.
  revert j; induction m as [|m IH]; intros j Hpos Hle; simpl; [done|].
  destruct (modulo_small j d) as (r & -> & Hr); [lia..|]. simpl.
  destruct (Nat.eqb_spec r 0); [done|]. apply IH; lia.
Qed.

(** With [g] files written and the next one due at line [g * d], the loop
    writes the files up to number [n] and leaves the others alone. *)
Lemma shard_loop_writes (csv_file : list string) (d n : nat) :
  d <> 0 ->
  forall (m j g : nat) (files : gmap nat (list string)),
    S g < n -> j <= g * d -> g * d < j + d -> n * d < j + m + 2 * d ->
    exists files',
      shard_loop csv_file d n (seq j m) files (S g) = Ok files'
      /\ (forall k, g < k < n ->
           files' !! k = Some (slice csv_file ((k - 1) * d) (k * d)))
      /\ files' !! n = Some (drop ((n - 1) * d) csv_file)
      /\ (forall k, k <= g \/ n < k -> files' !! k = files !! k).
Proof.
  intros Hd. induction m as [|m IH]; intros j g files Hg Hlow Hhigh Hend.
  { nia. }
  cbn [seq shard_loop].
  destruct (decide (j = g * d)) as [->|Hne].
  - rewrite modulo_multiple by done. cbn [mbind result_bind rbind Nat.eqb].
    rewrite Nat.add_1_r.
    destruct (Nat.eqb_spec (S (S g)) n) as [<-|Hmore].
    + eexists. split; [done|]. split; [|split].
      * intros k Hk. assert (k = S g) as -> by lia.
        rewrite lookup_insert_ne, lookup_insert_eq by lia.
        do 2 f_equal; lia.
      * rewrite lookup_insert_eq. do 2 f_equal. lia.
      * intros k Hk. by rewrite !lookup_insert_ne by lia.
    + destruct (IH (S (g * d)) (S g)
                  (<[S g := slice csv_file (g * d) (g * d + d)]> files))
        as (files' & Hrun & Hshards & Hlast & Hother); [lia..|].
      exists files'. split; [done|]. split; [|split; [done|]].
      * intros k Hk. destruct (decide (k = S g)) as [->|Hk'].
        -- rewrite Hother, lookup_insert_eq by lia. do 2 f_equal; lia.
        -- apply Hshards. lia.
      * intros k Hk. by rewrite Hother, lookup_insert_ne by lia.
  - destruct (modulo_between j g d) as (r & -> & Hr); [lia..|].
    cbn [mbind result_bind rbind].
    destruct (Nat.eqb_spec r 0); [done|].
    apply IH; lia.
Qed.

Lemma concat_slices {A} (xs : list A) (d c : nat) :
  concat (map (fun k => slice xs ((k - 1) * d) (k * d)) (seq 1 c))
  = take (c * d) xs.
Proof.
  induction c as [|c IH]; [done|].
  rewrite seq_S, map_app, concat_app, IH. cbn [map concat plus].
  rewrite app_nil_r. unfold slice.
  replace (S c - 1) with c by lia.
  rewrite <- (take_drop (c * d) (take (S c * d) xs)) at 2.
  f_equal. rewrite take_take. f_equal. lia.
Qed.

(** X12. With at least as many lines as processes, the files 1.csv to n.csv are
    written and nothing else is touched; the first n - 1 files hold
    total // n lines each, the last one the rest, which is less than n lines
    more; read in the order of their numbers the files give the lines of the
    target CSV back, each once. *)
Theorem shards_partition_the_lines (NUM_PROCESSES : nat)
    (csv_file : list string) (files : gmap nat (list string)) :
  1 <= NUM_PROCESSES ->
  NUM_PROCESSES <= length csv_file ->
  exists files',
    write_shards NUM_PROCESSES csv_file files = Ok files'
    /\ (forall k, 1 <= k <= NUM_PROCESSES -> is_Some (files' !! k))
    /\ (forall k, k = 0 \/ NUM_PROCESSES < k -> files' !! k = files !! k)
    /\ concat (map (shard files') (seq 1 NUM_PROCESSES)) = csv_file
    /\ (forall k, 1 <= k < NUM_PROCESSES ->
         length (shard files' k) = length csv_file / NUM_PROCESSES)
    /\ length csv_file / NUM_PROCESSES
       <= length (shard files' NUM_PROCESSES)
       < length csv_file / NUM_PROCESSES + NUM_PROCESSES.
Proof.
  intros Hn Htotal. unfold write_shards, int_truediv.
  destruct (Nat.eqb_spec NUM_PROCESSES 0) as [|_]; [lia|].
  cbn [mbind result_bind rbind].
  set (total := length csv_file) in *.
  set (d := total / NUM_PROCESSES).
  assert (NUM_PROCESSES * d <= total) as Hfloor
    by (apply Nat.Div0.mul_div_le).
  assert (total < NUM_PROCESSES * S d) as Hceil
    by (apply Nat.mul_succ_div_gt; lia).
  assert (d <> 0) as Hd by nia.
  assert (exists files',
            shard_loop csv_file d NUM_PROCESSES (seq 0 total) files 1
            = Ok files'
            /\ (forall k, 0 < k < NUM_PROCESSES ->
                 files' !! k = Some (slice csv_file ((k - 1) * d) (k * d)))
            /\ files' !! NUM_PROCESSES
               = Some (drop ((NUM_PROCESSES - 1) * d) csv_file)
            /\ (forall k, k <= 0 \/ NUM_PROCESSES < k ->
                 files' !! k = files !! k))
    as (files' & Hrun & Hshards & Hlast & Hother).
  { destruct (decide (NUM_PROCESSES = 1)) as [->|Hmany].
    - assert (d = total) as Hdt by (unfold d; apply Nat.div_1_r).
      destruct total as [|total'] eqn:Htot; [lia|].
      cbn [seq shard_loop].
      rewrite (modulo_multiple 0 d Hd : modulo 0 d = Ok 0).
      cbn [mbind result_bind rbind Nat.eqb Nat.add].
      rewrite shard_loop_idle by lia.
      eexists. split; [done|]. split; [intros k Hk; lia|]. split.
      + rewrite lookup_insert_eq. f_equal. unfold slice. simpl.
        rewrite !drop_0. apply take_ge. fold total. lia.
      + intros k Hk. apply lookup_insert_ne. lia.
    - apply shard_loop_writes; [done|lia..|nia]. }
  exists files'. split; [done|].
  assert (forall k, 1 <= k < NUM_PROCESSES ->
            shard files' k = slice csv_file ((k - 1) * d) (k * d))
    as Hshard.
  { intros k Hk. unfold shard. by rewrite Hshards by lia. }
  assert (shard files' NUM_PROCESSES
          = drop ((NUM_PROCESSES - 1) * d) csv_file) as Hshard_last.
  { unfold shard. by rewrite Hlast. }
  split; [|split; [|split; [|split]]].
  - intros k Hk. destruct (decide (k = NUM_PROCESSES)) as [->|Hk'].
    + by rewrite Hlast.
    + by rewrite Hshards by lia.
  - intros k Hk. apply Hother. lia.
  - replace NUM_PROCESSES with (NUM_PROCESSES - 1 + 1) at 1 by lia.
    rewrite seq_app, map_app, concat_app. cbn [seq map concat].
    replace (1 + (NUM_PROCESSES - 1)) with NUM_PROCESSES by lia.
    rewrite app_nil_r, Hshard_last.
    rewrite (map_ext_in _ (fun k => slice csv_file ((k - 1) * d) (k * d))).
    + rewrite concat_slices. apply take_drop.
    + intros k Hk%in_seq. apply Hshard. lia.
  - intros k Hk. rewrite Hshard by done. unfold slice.
    rewrite length_drop, length_take. fold total. nia.
  - rewrite Hshard_last, length_drop. fold total. nia.
Qed.

(** X13. With lines, but fewer than processes, total // n is 0 and the first
    [j % div_j] raises ZeroDivisionError before any file is written; so does
    the division when there is no process at all; with no line at all the
    loop is not entered and no file is written. *)
Theorem too_few_lines_for_the_processes (NUM_PROCESSES : nat)
    (csv_file : list string) (files : gmap nat (list string)) :
  (0 < length csv_file < NUM_PROCESSES ->
   write_shards NUM_PROCESSES csv_file files = Raise ZeroDivisionError)
  /\ (NUM_PROCESSES = 0 ->
      write_shards NUM_PROCESSES csv_file files = Raise ZeroDivisionError)
  /\ (csv_file = [] -> 0 < NUM_PROCESSES ->
      write_shards NUM_PROCESSES csv_file files = Ok files).
Proof.
  unfold write_shards, int_truediv. split; [|split].
  - intros Hfew. destruct (Nat.eqb_spec NUM_PROCESSES 0); [lia|].
    cbn [mbind result_bind rbind]. rewrite Nat.div_small by lia.
    destruct csv_file; [simpl in Hfew; lia | done].
  - by intros ->.
  - intros -> Hn. by destruct (Nat.eqb_spec NUM_PROCESSES 0); [lia|].
Qed.

(** * The scraper *)

Lemma find_all_In (soup : Soup) (name : string) (elem : Tag) :
  In elem (find_all soup name) ->
  In elem (soup_tags soup) /\ tag_name elem = name.
Proof.
  unfold find_all. rewrite filter_In, String.eqb_eq. by intros [? ?].
Qed.

Lemma find_all_with_In (soup : Soup) (name key : string) (elem : Tag) :
  In elem (find_all_with soup name key) ->
  In elem (soup_tags soup) /\ tag_name elem = name
  /\ is_Some (tag_attrs elem !! key).
Proof.
  unfold find_all_with. rewrite filter_In, andb_true_iff, String.eqb_eq.
  intros (? & ? & Hkey). repeat split; try done.
  by destruct (tag_attrs elem !! key).
Qed.

Lemma reparsed_attr (elem : Tag) (key : string) :
  reparses elem ->
  attr_of (BeautifulSoup (str_elem elem)) (tag_name elem) key
  = getitem elem key.
Proof.
  intros (elem' & others & Hfind & Hattrs). unfold attr_of, getitem.
  rewrite Hfind. simpl. by rewrite Hattrs.
Qed.

Lemma reparsed_is_element (elem : Tag) :
  reparses elem -> is_element (tag_name elem) (str_elem elem).
Proof.
  intros (elem' & others & Hfind & _). unfold is_element. by rewrite Hfind.
Qed.

Lemma stored_fragments_are_elements (soup : Soup) (name : string) :
  Forall reparses (soup_tags soup) ->
  Forall (is_element name) (map str_elem (find_all soup name)).
Proof.
  intros Hpage. rewrite Forall_forall in Hpage.
  apply Forall_forall. intros markup Hin%list_elem_of_In.
  apply in_map_iff in Hin as (elem & <- & Hin).
  apply find_all_In in Hin as [Hin <-].
  apply reparsed_is_element, Hpage. by apply list_elem_of_In.
Qed.

Lemma stored_links_have_href (soup : Soup) :
  Forall reparses (soup_tags soup) ->
  Forall (has_attr "a" "href")
    (map str_elem (find_all_with soup "a" "href")).
Proof.
  intros Hpage. rewrite Forall_forall in Hpage.
  apply Forall_forall. intros markup Hin%list_elem_of_In.
  apply in_map_iff in Hin as (elem & <- & Hin).
  apply find_all_with_In in Hin as (Hin & Hname & [href Hhref]).
  exists href. rewrite <- Hname, reparsed_attr.
  - unfold getitem. by rewrite Hhref.
  - apply Hpage. by apply list_elem_of_In.
Qed.

Lemma stored_entry_well_formed (soup : Soup) (link : string) :
  Forall reparses (soup_tags soup) ->
  well_formed (stored_entry soup link).
Proof.
  intros Hpage. unfold well_formed, stored_entry. cbn.
  auto using stored_fragments_are_elements, stored_links_have_href.
Qed.

(** X14. When the markup of every element of the page parses back to the
    element, the record [_parse_required_tags] writes to <link>.json has the
    link as its name and satisfies the data-model invariant: an <a> without
    href is not stored, so every stored link has one. The calculator then
    processes the record without an exception and writes its row. *)
Theorem scraped_record_is_scored (soup : Soup) (link : string) (d : disk)
    (w : world) :
  Forall reparses (soup_tags soup) ->
  row_data w = [] ->
  json_files (_parse_required_tags soup link d) !! (link +:+ ".json")
  = Some (stored_entry soup link)
  /\ name (stored_entry soup link) = link
  /\ well_formed (stored_entry soup link)
  /\ (forall markup,
       In markup (href_tags (stored_entry soup link)) ->
       exists elem href,
         In elem (soup_tags soup) /\ markup = str_elem elem
         /\ tag_name elem = "a" /\ tag_attrs elem !! "href" = Some href)
  /\ calculate_metrics_body (stored_entry soup link) w
     = Return tt
         {| row_data := [];
            results_csv :=
              results_csv w ++ [result_row (stored_entry soup link)] |}.
Proof.
  intros Hpage Hrow. split; [|split; [done|split; [|split]]].
  - unfold _parse_required_tags, _add_to_json, _write_to_json. cbn.
    apply lookup_insert_eq.
  - by apply stored_entry_well_formed.
  - cbn. intros markup (elem & <- & Hin)%in_map_iff.
    apply find_all_with_In in Hin as (Hin & Hname & [href Hhref]).
    by exists elem, href.
  - rewrite calculate_metrics_body_writes, Hrow;
      [done | by apply stored_entry_well_formed].
Qed.

Lemma count_where_map {A B} (f : A -> B) (p : B -> bool) (xs : list A) :
  count_where p (map f xs) = count_where (fun x => p (f x)) xs.
Proof. induction xs as [|x xs IH]; simpl; [done|]. by rewrite IH. Qed.

Lemma count_where_ext_in {A} (p q : A -> bool) (xs : list A) :
  (forall x, In x xs -> p x = q x) -> count_where p xs = count_where q xs.
Proof.
  induction xs as [|x xs IH]; simpl; [done|]. intros Hpq.
  rewrite (Hpq x), IH by auto. done.
Qed.

(** X15. The ITAA computed from the stored fragments of a page is the share of
    the <img> elements of the page whose alt attribute is there and passes
    the test, when the markup of the elements parses back to them. *)
Theorem stored_itaa_is_the_share_of_page_images (soup : Soup) (link : string)
    (w : world) :
  Forall reparses (soup_tags soup) ->
  find_all soup "img" <> [] ->
  _calculate_alt_metric (alt_tags (stored_entry soup link)) w
  = Return tt
      (push (Float (ratio (count_where img_counts (find_all soup "img"))
                      (length (find_all soup "img")))) w).
Proof.
  intros Hpage Hne. cbn [stored_entry alt_tags].
  rewrite alt_metric_appends by by apply stored_fragments_are_elements.
  unfold alt_metric_cell. rewrite count_where_map, length_map.
  rewrite (count_where_ext_in _ img_counts).
  - by destruct (find_all soup "img").
  - intros elem Hin. apply find_all_In in Hin as [Hin Hname].
    unfold alt_counts, img_counts. rewrite <- Hname at 1.
    rewrite reparsed_attr.
    + unfold getitem. destruct (tag_attrs elem !! "alt"); [|done].
      by rewrite meaningful_alt_words.
    + rewrite Forall_forall in Hpage. apply Hpage. by apply list_elem_of_In.
Qed.

Lemma append_length (a b : string) :
  String.length (a +:+ b) = String.length a + String.length b.
Proof.
  induction a as [|x a IH]; [done|].
  rewrite append_cons. simpl. by rewrite IH.
Qed.

Lemma append_inj_r (a b c : string) : a +:+ c = b +:+ c -> a = b.
Proof.
  revert b; induction a as [|x a IH]; intros [|y b] Heq.
  - done.
  - apply (f_equal String.length) in Heq.
    rewrite !append_length in Heq. simpl in Heq. lia.
  - apply (f_equal String.length) in Heq.
    rewrite !append_length in Heq. simpl in Heq. lia.
  - rewrite !append_cons in Heq. injection Heq as -> Heq.
    f_equal. by apply IH.
Qed.

Lemma scrape_html_cases (link : string) (d : disk) :
  (forall e, page_source_of (HTTPS_PREFIX +:+ link) = Raise e ->
             exists msg, e = WebDriverException msg) ->
  _scrape_html link d
  = Finished
      (match page_source_of (HTTPS_PREFIX +:+ link) with
       | Ok source => _parse_required_tags (BeautifulSoup source) link d
       | Raise _ =>
           {| FAILURES := FAILURES d ++ [link];
              json_files := json_files d;
              failures_txt := failures_txt d;
              results := results d |}
       end).
Proof.
  intros Hweb. unfold _scrape_html.
  destruct (page_source_of (HTTPS_PREFIX +:+ link)) as [source|e]; [done|].
  by destruct (Hweb e eq_refl) as [msg ->].
Qed.

Lemma scrape_lines_books (csv_file : list (list string)) (d : disk) :
  Forall (fun line => line <> []) csv_file ->
  (forall link e,
     In link (links_of csv_file) ->
     page_source_of (HTTPS_PREFIX +:+ link) = Raise e ->
     exists msg, e = WebDriverException msg) ->
  exists d',
    scrape_lines csv_file d = Finished d'
    /\ FAILURES d' = FAILURES d ++ List.filter fails (links_of csv_file)
    /\ (forall link source,
         In link (links_of csv_file) ->
         page_source_of (HTTPS_PREFIX +:+ link) = Ok source ->
         json_files d' !! (link +:+ ".json")
         = Some (stored_entry (BeautifulSoup source) link))
    /\ (forall link,
         ~ (In link (links_of csv_file) /\ fails link = false) ->
         json_files d' !! (link +:+ ".json")
         = json_files d !! (link +:+ ".json"))
    /\ failures_txt d' = failures_txt d
    /\ results d' = results d.
Proof.
  intros Hrows; revert d.
  induction Hrows as [|line rest Hline _ IH]; intros d Hweb.
  { exists d. simpl. rewrite app_nil_r. by repeat split. }
  apply last_is_Some in Hline as [link Hlink].
  assert (links_of (line :: rest) = link :: links_of rest) as Hlinks.
  { unfold links_of. simpl. by rewrite Hlink. }
  rewrite Hlinks in *. cbn [scrape_lines]. rewrite Hlink.
  rewrite scrape_html_cases by (intros e; apply Hweb; by left).
  set (d1 := match page_source_of (HTTPS_PREFIX +:+ link) with
             | Ok source => _ | Raise _ => _ end).
  destruct (IH d1) as (d' & Hrun & Hfail & Hjson & Hkeep & Htxt & Hres).
  { intros link' e Hin. apply Hweb. by right. }
  exists d'. split; [done|].
  assert (forall link' source,
            page_source_of (HTTPS_PREFIX +:+ link') = Ok source ->
            fails link' = false) as Hok.
  { intros link' source Hs. unfold fails. by rewrite Hs. }
  split; [|split; [|split; [|split]]].
  - rewrite Hfail. subst d1. cbn [List.filter]. unfold fails at 2.
    destruct (page_source_of (HTTPS_PREFIX +:+ link)); simpl;
      [done | by rewrite <- app_assoc].
  - intros link' source [<-|Hin] Hsource; [|by apply Hjson].
    destruct (decide (link ∈ links_of rest)) as [Hin%list_elem_of_In|Hnot];
      [by apply Hjson|].
    rewrite Hkeep by (intros [Hin _]; by apply Hnot, list_elem_of_In).
    subst d1. rewrite Hsource.
    unfold _parse_required_tags, _add_to_json, _write_to_json. cbn.
    apply lookup_insert_eq.
  - intros link' Hnot.
    rewrite Hkeep by (intros [? ?]; apply Hnot; split; [by right | done]).
    subst d1.
    destruct (page_source_of (HTTPS_PREFIX +:+ link)) as [source|e] eqn:Hs;
      [|done].
    unfold _parse_required_tags, _add_to_json, _write_to_json. cbn.
    apply lookup_insert_ne. intros Heq%append_inj_r. subst link'.
    apply Hnot. split; [by left | by eapply Hok].
  - rewrite Htxt. subst d1.
    by destruct (page_source_of (HTTPS_PREFIX +:+ link)).
  - rewrite Hres. subst d1.
    by destruct (page_source_of (HTTPS_PREFIX +:+ link)).
Qed.


(** X17. A row without fields, which is what [csv.reader] yields for a blank
    line, ends the scraper with the IndexError of [line[-1]]: the links
    before it have been scraped and their failures are in FAILURES, but
    failures.txt is not written and the calculator is not started. *)
Theorem blank_row_aborts_the_scraper (before after : list (list string))
    (listdir : list FragmentRecord) (d : disk) :
  Forall (fun line => line <> []) before ->
  (forall link e,
     In link (links_of before) ->
     page_source_of (HTTPS_PREFIX +:+ link) = Raise e ->
     exists msg, e = WebDriverException msg) ->
  exists d',
    _run_scraper (before ++ [] :: after) listdir d = Aborted IndexError d'
    /\ FAILURES d' = FAILURES d ++ List.filter fails (links_of before)
    /\ failures_txt d' = failures_txt d
    /\ results d' = results d.
Proof.
  intros Hrows Hweb.
  destruct (scrape_lines_books before d Hrows Hweb)
    as (d1 & Hrun & Hfail & _ & _ & Htxt & Hres).
  exists d1. split; [|done].
  unfold _run_scraper.
  assert (scrape_lines (before ++ [] :: after) d = Aborted IndexError d1)
    as ->; [|done].
  clear Hfail Htxt Hres Hweb. revert d Hrun.
  induction Hrows as [|line rest Hline _ IH]; intros d; cbn.
  - by intros [= ->].
  - destruct (last line) as [link|]; [|done].
    destruct (_scrape_html link d); [apply IH | done].
Qed.

End Calculator.

(** * The claims on the example fragments *)

Ltac fragments :=
  repeat match goal with
         | |- Forall _ [] => apply Forall_nil_2
         | |- Forall _ (_ :: _) => apply Forall_cons_2
         | |- well_formed _ _ => split; [|split; [|split]]
         | |- Forall ?P ?l => let l' := eval hnf in l in
                              progress change (Forall P l')
         end;
  first [ by vm_compute | by (eexists; vm_compute) ].

(** C4. The specification counts an input whose id occurs in the [for] of
    some label. The code reads the labels in order and gives the input up at
    the first label without a [for]: the KeyError of that label is caught by
    the handler meant for an input without id. With the labels
    [<label>Name</label>] and [<label for='x'>Name</label>] the input
    [<input id='x'>] is matched in the specification's sense and LIM is 0.0;
    with the same two labels in the other order LIM is 1.0. *)
Theorem label_without_for_ends_the_scan (w : world) :
  input_matched html_parser
    ["<label>Name</label>"; "<label for='x'>Name</label>"] "<input id='x'>"
  = true
  /\ _calculate_label_input_metric html_parser
       ["<label>Name</label>"; "<label for='x'>Name</label>"]
       ["<input id='x'>"] w
     = Return tt (push (Float 0) w)
  /\ _calculate_label_input_metric html_parser
       ["<label for='x'>Name</label>"; "<label>Name</label>"]
       ["<input id='x'>"] w
     = Return tt (push (Float 1) w).
Proof.
  split; [|split]; by vm_compute.
Qed.

Lemma itaa_share_of_meaningful_alts_witness :
  Forall (is_element html_parser "img")
    ["<img alt='a photo'>"; "<img alt=''>"; "<img src='logo.png'>"]
  /\ _calculate_alt_metric html_parser
       ["<img alt='a photo'>"; "<img alt=''>"; "<img src='logo.png'>"]
       empty_world
     = Return tt (push (Float (1 # 3)) empty_world).
Proof.
  assert (Forall (is_element html_parser "img")
            ["<img alt='a photo'>"; "<img alt=''>"; "<img src='logo.png'>"])
    as Hwf by fragments.
  split; [exact Hwf|].
  destruct (itaa_share_of_meaningful_alts html_parser _ empty_world Hwf)
    as [Happends _].
  rewrite Happends. by vm_compute.
Defined.

Lemma ham_share_of_links_named_in_href_witness :
  Forall (has_attr html_parser "a" "href")
    ["<a href='/products/shoes'>Shoes</a>"; "<a href='/shoes'>shoes</a>"]
  /\ _calculate_hyperlinks_metric html_parser
       ["<a href='/products/shoes'>Shoes</a>"; "<a href='/shoes'>shoes</a>"]
       empty_world
     = Return tt (push (Float (1 # 2)) empty_world).
Proof.
  assert (Forall (has_attr html_parser "a" "href")
            ["<a href='/products/shoes'>Shoes</a>";
             "<a href='/shoes'>shoes</a>"])
    as Hwf by fragments.
  split; [exact Hwf|].
  destruct (ham_share_of_links_named_in_href html_parser _ empty_world Hwf)
    as [Happends _].
  rewrite Happends. by vm_compute.
Defined.

Lemma lim_without_labels_witness :
  Forall (has_attr html_parser "input" "hidden") ["<input id='x' hidden>"]
  /\ lacks_attr html_parser "input" "hidden" "<input id='x'>"
  /\ _calculate_label_input_metric html_parser []
       (["<input id='x' hidden>"] ++ "<input id='x'>" :: ["<p>no input</p>"])
       empty_world
     = Return tt (push (Float 0) empty_world)
  /\ _calculate_label_input_metric html_parser [] ["<input id='x' hidden>"]
       empty_world
     = Return tt (push (Float 0) empty_world).
Proof.
  assert (Forall (has_attr html_parser "input" "hidden")
            ["<input id='x' hidden>"]) as Hhidden by fragments.
  assert (lacks_attr html_parser "input" "hidden" "<input id='x'>")
    as Hvisible by (by vm_compute).
  assert (["<input id='x' hidden>"] <> []) as Hne by done.
  destruct (lim_without_labels html_parser ["<input id='x' hidden>"]
              ["<p>no input</p>"] ["<input id='x' hidden>"] "<input id='x'>"
              (ret tt) empty_world Hhidden Hvisible Hne Hhidden)
    as [[Hshort _] (_ & _ & Hall & Hzero)].
  split; [exact Hhidden|]. split; [exact Hvisible|]. split; [exact Hshort|].
  rewrite Hall. by rewrite Hzero.
Defined.

Lemma metric_values_in_range_witness :
  well_formed html_parser accessible_site
  /\ exists itaa ham lim,
       evaluate html_parser accessible_site empty_world
       = Return tt (push lim (push ham (push itaa empty_world)))
       /\ metric_value itaa /\ metric_value ham /\ metric_value lim.
Proof.
  assert (well_formed html_parser accessible_site) as Hwf
    by fragments.
  split; [exact Hwf|].
  exact (metric_values_in_range html_parser accessible_site empty_world Hwf).
Defined.

(** C6 fails on the code. The second link of c.com was stored without its
    href: the run raises KeyError while it computes the HAM of c.com, with
    the name and the ITAA in the buffer; no row is written for c.com nor for
    a.com, listed after it. *)
Lemma malformed_link_ends_the_run :
  __init__ html_parser no_browser [broken_site; accessible_site] []
  = Raised KeyError
      {| row_data := [Str "c.com"; Float 0]; results_csv := [] |}
  /\ ~ exists w,
        __init__ html_parser no_browser [broken_site; accessible_site] []
        = Return tt w.
Proof.
  assert (__init__ html_parser no_browser [broken_site; accessible_site] []
          = Raised KeyError
              {| row_data := [Str "c.com"; Float 0]; results_csv := [] |})
    as Hrun by (by vm_compute).
  split; [exact Hrun|]. rewrite Hrun. by intros [w Hw].
Qed.

Lemma run_stops_at_link_without_href_witness :
  Forall (well_formed html_parser) [accessible_site; empty_site]
  /\ __init__ html_parser no_browser
       ([accessible_site; empty_site] ++ broken_site :: [accessible_site]) []
     = Raised KeyError
         {| row_data := [Str "c.com"; Float 0];
            results_csv :=
              [ [Str "a.com"; Float 1; Float 1; Float 1; Str "-1%"];
                [Str "b.com"; Str "No Data"; Str "No Data"; Str "No Data";
                 Str "-1%"] ] |}.
Proof.
  assert (Forall (well_formed html_parser) [accessible_site; empty_site])
    as Hdone by fragments.
  assert (Forall (is_element html_parser "img") (alt_tags broken_site))
    as Himg by fragments.
  assert (Forall (has_attr html_parser "a" "href") ["<a href='/about'></a>"])
    as Hbefore by fragments.
  assert (lacks_attr html_parser "a" "href" "<a name='top'>shoes</a>")
    as Htag by (by vm_compute).
  split; [exact Hdone|].
  destruct (run_stops_at_link_without_href html_parser no_browser
              [accessible_site; empty_site] [accessible_site] broken_site
              ["<a href='/about'></a>"] ["<a href='/shoes'>shoes</a>"]
              "<a name='top'>shoes</a>" [] Hdone Himg eq_refl Hbefore Htag)
    as [_ Hstop].
  rewrite Hstop. by vm_compute.
Defined.

(** C7 fails on the code. A link without href makes HAM raise KeyError; and
    a label without [for] decides whether the label after it is read: LIM
    is 1.0 when the label that names the input comes first and 0.0 when
    the label without [for] does. *)
Lemma absent_href_raises_and_absent_for_hides_labels :
  _calculate_hyperlinks_metric html_parser
    ["<a name='top'>shoes</a>"; "<a href='/shoes'>shoes</a>"] empty_world
  = Raised KeyError empty_world
  /\ _calculate_label_input_metric html_parser
       ["<label for='x'>Name</label>"; "<label>Name</label>"]
       ["<input id='x'>"] empty_world
     = Return tt (push (Float 1) empty_world)
  /\ _calculate_label_input_metric html_parser
       ["<label>Name</label>"; "<label for='x'>Name</label>"]
       ["<input id='x'>"] empty_world
     = Return tt (push (Float 0) empty_world).
Proof. split; [|split]; by vm_compute. Qed.

Lemma absent_attributes_witness :
  lacks_attr html_parser "img" "alt" "<img src='logo.png'>"
  /\ lacks_attr html_parser "input" "id" "<input type='text'>"
  /\ has_attr html_parser "input" "hidden" "<input id='x' hidden>"
  /\ lacks_attr html_parser "a" "href" "<a name='top'>shoes</a>"
  /\ for_each (["<img alt='a photo'>"] ++ "<img src='logo.png'>" :: [])
       (alt_body html_parser) 0
     = Ok 1
  /\ for_each (["<input id='x'>"] ++ "<input type='text'>" :: [])
       (label_input_body html_parser ["<label for='x'>Name</label>"]) 0
     = Ok 1
  /\ for_each (["<input id='x'>"] ++ "<input id='x' hidden>" :: [])
       (label_input_body html_parser ["<label for='x'>Name</label>"]) 0
     = Ok 1
  /\ _calculate_hyperlinks_metric html_parser
       (["<a href='/shoes'>shoes</a>"] ++ "<a name='top'>shoes</a>" :: [])
       empty_world
     = Raised KeyError empty_world.
Proof.
  assert (Forall (is_element html_parser "img") (["<img alt='a photo'>"] ++ []))
    as Himgs by fragments.
  assert (lacks_attr html_parser "img" "alt" "<img src='logo.png'>")
    as Himg by (by vm_compute).
  assert (Forall (is_element html_parser "label")
            ["<label for='x'>Name</label>"]) as Hlabels by fragments.
  assert (Forall (is_element html_parser "input") (["<input id='x'>"] ++ []))
    as Hinputs by fragments.
  assert (lacks_attr html_parser "input" "id" "<input type='text'>")
    as Hinput by (by vm_compute).
  assert (has_attr html_parser "input" "hidden" "<input id='x' hidden>")
    as Hhidden by (by (eexists; vm_compute)).
  assert (Forall (has_attr html_parser "a" "href")
            ["<a href='/shoes'>shoes</a>"]) as Hlinks by fragments.
  assert (lacks_attr html_parser "a" "href" "<a name='top'>shoes</a>")
    as Hlink by (by vm_compute).
  destruct (absent_attributes html_parser
              ["<img alt='a photo'>"] [] ["<input id='x'>"] []
              ["<label for='x'>Name</label>"]
              ["<a href='/shoes'>shoes</a>"] []
              "<img src='logo.png'>" "<input type='text'>"
              "<input id='x' hidden>" "<a name='top'>shoes</a>" 0 empty_world
              Himgs Himg Hlabels Hinputs Hinput Hhidden Hlinks Hlink)
    as ([Halt _] & (Hid & Hhid & _) & Hhref).
  split; [exact Himg|]. split; [exact Hinput|]. split; [exact Hhidden|].
  split; [exact Hlink|].
  split; [|split; [|split; [|exact Hhref]]].
  - rewrite Halt. by vm_compute.
  - rewrite Hid. by vm_compute.
  - rewrite Hhid. by vm_compute.
Defined.


Lemma evaluator_has_no_hidden_state_witness :
  exists v1 v2 v3,
    {| row_data := [Float 1; Float 1; Float 1]; results_csv := [] |}
    = push v3 (push v2 (push v1 empty_world))
    /\ {| row_data := [Float 1; Float 1; Float 1; Float 1; Float 1; Float 1];
          results_csv := [] |}
       = push v3 (push v2 (push v1
           {| row_data := [Float 1; Float 1; Float 1]; results_csv := [] |})).
Proof.
  destruct (evaluator_has_no_hidden_state html_parser accessible_site)
    as (itaa & ham & lim & _ & _ & _ & _ & Htwice).
  apply (Htwice empty_world); by vm_compute.
Defined.

Lemma row_has_five_values_witness :
  well_formed html_parser accessible_site
  /\ row_data empty_world = []
  /\ exists itaa ham lim percent,
       calculate_metrics_body html_parser slow_browser accessible_site
         empty_world
       = Return tt
           {| row_data := [];
              results_csv :=
                results_csv empty_world
                ++ [[Str (name accessible_site); itaa; ham; lim; Str percent]]
           |}.
Proof.
  assert (well_formed html_parser accessible_site) as Hwf
    by fragments.
  split; [exact Hwf|]. split; [reflexivity|].
  exact (proj1 (row_has_five_values html_parser slow_browser accessible_site
                  empty_world Hwf eq_refl)).
Defined.

(** * The further properties on the example fragments *)

Lemma fragment_without_element_raises_witness :
  _calculate_alt_metric html_parser
    (["<img alt='a photo'>"] ++ "<p>no image</p>" :: ["<img alt=''>"])
    empty_world
  = Raised IndexError empty_world
  /\ _calculate_label_input_metric html_parser ["<label for='x'>Name</label>"]
       (["<input id='x'>"] ++ "<p>no input</p>" :: []) empty_world
     = Raised IndexError empty_world.
Proof.
  apply (fragment_without_element_raises html_parser).
  - fragments.
  - by vm_compute.
  - done.
  - fragments.
  - fragments.
  - by vm_compute.
Defined.

Lemma metrics_ignore_fragment_order_witness :
  _calculate_alt_metric html_parser
    ["<img alt=''>"; "<img alt='a photo'>"] empty_world
  = _calculate_alt_metric html_parser
      ["<img alt='a photo'>"; "<img alt=''>"] empty_world
  /\ _calculate_hyperlinks_metric html_parser
       ["<a href='/shoes'>shoes</a>"; "<a href='/products/shoes'>Shoes</a>"]
       empty_world
     = _calculate_hyperlinks_metric html_parser
         ["<a href='/products/shoes'>Shoes</a>"; "<a href='/shoes'>shoes</a>"]
         empty_world
  /\ _calculate_label_input_metric html_parser ["<label for='x'>Name</label>"]
       ["<input id='y'>"; "<input id='x'>"] empty_world
     = _calculate_label_input_metric html_parser
         ["<label for='x'>Name</label>"]
         ["<input id='x'>"; "<input id='y'>"] empty_world.
Proof.
  apply (metrics_ignore_fragment_order html_parser).
  - apply perm_swap.
  - apply perm_swap.
  - apply perm_swap.
  - fragments.
  - fragments.
  - fragments.
  - fragments.
Defined.

Lemma itaa_ham_extremes_witness :
  _calculate_alt_metric html_parser ["<img alt='a photo'>"] empty_world
  = Return tt (push (Float 1) empty_world)
  /\ _calculate_hyperlinks_metric html_parser
       ["<a href='/products/shoes'>Shoes</a>"] empty_world
     = Return tt (push (Float 0) empty_world).
Proof.
  destruct (itaa_ham_extremes html_parser ["<img alt='a photo'>"]
              ["<a href='/products/shoes'>Shoes</a>"] empty_world)
    as (Hone & _ & _ & Hzero); [done | done | fragments | fragments |].
  split; [apply Hone | apply Hzero]; fragments.
Defined.

Lemma alt_verdict_ignores_case_witness :
  meaningful_alt "An Image OF a cat" = meaningful_alt "an image of A CAT".
Proof.
  apply (alt_verdict_ignores_case "An Image OF a cat" "an image of A CAT").
  by vm_compute.
Defined.

Lemma ham_empty_token_witness :
  link_accessible (document "a" [("href", "/contact")] "get  in touch") = true.
Proof.
  apply (ham_empty_token (document "a" [("href", "/contact")] "get  in touch")
           "/contact"); [by vm_compute|].
  do 3 right. by exists "get", "in touch".
Defined.

Lemma lim_counts_an_input_iff_witness :
  label_input_body html_parser
    ["<label>Name</label>"; "<label for='x'>Name</label>"] "<input id='x'>" 0
  = Ok (0 + 1)
  \/ label_input_body html_parser
       ["<label>Name</label>"; "<label for='x'>Name</label>"] "<input id='x'>"
       0
     = Ok 0.
Proof.
  apply (lim_counts_an_input_iff html_parser); fragments.
Defined.

Lemma lim_counts_empty_id_witness :
  label_input_body page_parser ["<label for='x-field'>Name</label>"]
    "<input id=''>" 0
  = Ok (0 + 1).
Proof.
  apply (lim_counts_empty_id page_parser).
  - fragments.
  - by (eexists; vm_compute).
  - by vm_compute.
  - by vm_compute.
Defined.

Lemma lookup_reads_the_page_at_most_twice_witness :
  _get_accessibility_percent slow_browser "a.com" empty_world
  = Return tt (push (Str "87%") empty_world).
Proof.
  apply (lookup_reads_the_page_at_most_twice slow_browser "a.com" "87%"
           KeyError empty_world eq_refl); by vm_compute.
Defined.


Lemma shards_partition_the_lines_witness :
  exists files,
    write_shards 3 ["1,a.com"; "2,b.com"; "3,c.com"; "4,d.com"; "5,e.com";
                    "6,f.com"; "7,g.com"] ∅
    = Ok files
    /\ concat (map (shard files) (seq 1 3))
       = ["1,a.com"; "2,b.com"; "3,c.com"; "4,d.com"; "5,e.com"; "6,f.com";
          "7,g.com"]
    /\ length (shard files 1) = 2
    /\ length (shard files 2) = 2.
Proof.
  destruct (shards_partition_the_lines 3
              ["1,a.com"; "2,b.com"; "3,c.com"; "4,d.com"; "5,e.com";
               "6,f.com"; "7,g.com"] ∅)
    as (files & Hrun & _ & _ & Hconcat & Hsize & _); [simpl; lia..|].
  exists files. split; [exact Hrun|]. split; [exact Hconcat|].
  split; apply Hsize; lia.
Defined.

Ltac elements_reparse :=
  repeat match goal with
         | |- Forall _ [] => apply Forall_nil_2
         | |- Forall _ (_ :: _) => apply Forall_cons_2
         | |- Forall ?P ?l => let l' := eval hnf in l in
                              progress change (Forall P l')
         end;
  by (do 2 eexists; split; vm_compute).

Lemma scraped_record_is_scored_witness :
  Forall (reparses page_parser element_markup) (soup_tags home_page)
  /\ alt_tags (stored_entry element_markup home_page "a.com")
     = ["<img alt='a photo'>"; "<img src='logo.png'>"]
  /\ href_tags (stored_entry element_markup home_page "a.com")
     = ["<a href='/shoes'>shoes</a>"]
  /\ calculate_metrics_body page_parser no_browser
       (stored_entry element_markup home_page "a.com") empty_world
     = Return tt
         {| row_data := [];
            results_csv :=
              [[Str "a.com"; Float (1 # 2); Float 1; Float 1; Str "-1%"]] |}.
Proof.
  assert (Forall (reparses page_parser element_markup) (soup_tags home_page))
    as Hpage by elements_reparse.
  split; [exact Hpage|].
  split; [by vm_compute|]. split; [by vm_compute|].
  destruct (scraped_record_is_scored page_parser no_browser element_markup
              home_page "a.com" empty_disk empty_world Hpage eq_refl)
    as (_ & _ & _ & _ & Hrow).
  rewrite Hrow. by vm_compute.
Defined.

Lemma stored_itaa_is_the_share_of_page_images_witness :
  _calculate_alt_metric page_parser
    (alt_tags (stored_entry element_markup home_page "a.com")) empty_world
  = Return tt (push (Float (1 # 2)) empty_world).
Proof.
  rewrite (stored_itaa_is_the_share_of_page_images page_parser element_markup
             home_page "a.com" empty_world).
  - by vm_compute.
  - elements_reparse.
  - by vm_compute.
Defined.


Lemma blank_row_aborts_the_scraper_witness :
  exists d,
    _run_scraper page_parser no_browser web element_markup
      ([["1"; "down.example"]] ++ [] :: [["2"; "a.com"]]) [accessible_site]
      empty_disk
    = Aborted IndexError d
    /\ FAILURES d = ["down.example"]
    /\ failures_txt d = None
    /\ results d = [].
Proof.
  destruct (blank_row_aborts_the_scraper page_parser no_browser web
              element_markup [["1"; "down.example"]] [["2"; "a.com"]]
              [accessible_site] empty_disk)
    as (d & Hrun & Hfail & Htxt & Hres).
  - by repeat apply Forall_cons_2; try apply Forall_nil_2.
  - intros link e [<-|[]]; vm_compute. intros [= <-]. by eexists.
  - exists d. split; [exact Hrun|].
    split; [rewrite Hfail; by vm_compute|].
    split; [by rewrite Htxt | by rewrite Hres].
Defined.
